(** * build_workflows.py: extraction and classification of n8n workflows

    A shallow embedding of [scripts/build_workflows.py] and the proofs of
    the properties its specification states.

    Text is modelled by [string] (a sequence of 8-bit characters), with
    Python's case mapping on the ASCII letters; a property that would
    depend on the case mapping of other characters is stated on the
    lower-cased text or for ASCII text only.  A parsed JSON document is
    the inductive type [json], its numbers being integers; a Python [dict]
    is an association list in
    which the first binding of a key is the one a lookup sees; the Python
    [set] of [extract_integrations] is a [gset string], whose enumeration
    order ([elements]) plays the part of the implementation-defined
    iteration order.  An exception caught by the handler of
    [process_workflow_file] is the [None] of the option monad. *)

From Stdlib Require Import Ascii String.
From stdpp Require Import base option list gmap strings.

Local Open Scope string_scope.

(** ** Characters and text primitives *)

Module Text.

Definition is_upper (c : ascii) : bool :=
  let n := nat_of_ascii c in (65 <=? n)%nat && (n <=? 90)%nat.

Definition is_lower (c : ascii) : bool :=
  let n := nat_of_ascii c in (97 <=? n)%nat && (n <=? 122)%nat.

Definition is_digit (c : ascii) : bool :=
  let n := nat_of_ascii c in (48 <=? n)%nat && (n <=? 57)%nat.

(** Python's [c.isalpha()], i.e. a cased character (ASCII). *)
Definition is_cased (c : ascii) : bool := is_upper c || is_lower c.

Definition lower_char (c : ascii) : ascii :=
  if is_upper c then ascii_of_nat (nat_of_ascii c + 32) else c.

Definition upper_char (c : ascii) : ascii :=
  if is_lower c then ascii_of_nat (nat_of_ascii c - 32) else c.

(** [s.lower()] *)
Fixpoint lower (s : string) : string :=
  match s with
  | EmptyString => EmptyString
  | String c r => String (lower_char c) (lower r)
  end.

(** [s.title()]: a character that follows a cased character is
    lower-cased, any other one is upper-cased. *)
Fixpoint title_from (prev_cased : bool) (s : string) : string :=
  match s with
  | EmptyString => EmptyString
  | String c r =>
      String (if prev_cased then lower_char c else upper_char c)
             (title_from (is_cased c) r)
  end.

Definition title (s : string) : string := title_from false s.

(** [s.startswith(p)] *)
Fixpoint startswith (p s : string) : bool :=
  match p, s with
  | EmptyString, _ => true
  | String a p', String b s' => if Ascii.eqb a b then startswith p' s' else false
  | String _ _, EmptyString => false
  end.

(** [k in s] on two strings. *)
Fixpoint contains (k s : string) : bool :=
  startswith k s ||
  match s with
  | EmptyString => false
  | String _ r => contains k r
  end.

(** [s.replace(old, new)] for a non-empty [old]: every occurrence, found
    from left to right without overlap.  [skip] counts the characters of
    an occurrence just replaced that are still to be passed over. *)
Fixpoint replace_from (skip : nat) (old new s : string) : string :=
  match s with
  | EmptyString => EmptyString
  | String c r =>
      match skip with
      | S k => replace_from k old new r
      | O =>
          if startswith old s
          then new ++ replace_from (String.length old - 1) old new r
          else String c (replace_from 0 old new r)
      end
  end.

Definition replace (old new s : string) : string := replace_from 0 old new s.

(** [sep.join(l)] *)
Fixpoint join (sep : string) (l : list string) : string :=
  match l with
  | [] => EmptyString
  | [x] => x
  | x :: r => x ++ sep ++ join sep r
  end.

(** The character class [[a-z0-9]] of the slug pattern. *)
Definition is_slug_alnum (c : ascii) : bool := is_lower c || is_digit c.

Definition hyphen : ascii := "-"%char.

(** [re.sub(r'[^a-z0-9]+', '-', s)]: every maximal run of characters
    outside [[a-z0-9]] becomes one hyphen.  [in_run] tells that the
    previous character belonged to such a run. *)
Fixpoint sub_runs (in_run : bool) (s : string) : string :=
  match s with
  | EmptyString => EmptyString
  | String c r =>
      if is_slug_alnum c then String c (sub_runs false r)
      else if in_run then sub_runs true r
      else String hyphen (sub_runs true r)
  end.

Definition re_sub_non_alnum (s : string) : string := sub_runs false s.

(** [s.lstrip('-')] *)
Fixpoint lstrip_hyphen (s : string) : string :=
  match s with
  | EmptyString => EmptyString
  | String c r => if Ascii.eqb c hyphen then lstrip_hyphen r else s
  end.

(** [s.rstrip('-')] *)
Fixpoint rstrip_hyphen (s : string) : string :=
  match s with
  | EmptyString => EmptyString
  | String c r =>
      match rstrip_hyphen r with
      | EmptyString => if Ascii.eqb c hyphen then EmptyString else String c EmptyString
      | r' => String c r'
      end
  end.

(** [s.strip('-')] *)
Definition strip_hyphen (s : string) : string := rstrip_hyphen (lstrip_hyphen s).

End Text.

(** ** [slugify] *)

Definition slugify (text : string) : string :=
  Text.strip_hyphen (Text.re_sub_non_alnum (Text.lower text)).

(** ** Parsed JSON documents *)

#[warnings="-register-all"] Inductive json : Type :=
  | JNull
  | JBool (b : bool)
  | JNum (n : Z)
  | JStr (s : string)
  | JArr (items : list json)
  | JObj (fields : list (string * json)).

(** A Python [dict] with text keys. *)
Definition dict : Type := list (string * json).

(** [k in d] and [d[k]] on a dict: [None] when the key is absent. *)
Fixpoint dict_get (k : string) (d : dict) : option json :=
  match d with
  | [] => None
  | (k', v) :: rest => if String.eqb k k' then Some v else dict_get k rest
  end.

(** Python's truth value of a parsed JSON value ([not v] is its negation). *)
Definition truthy (v : json) : bool :=
  match v with
  | JNull => false
  | JBool b => b
  | JNum n => negb (n =? 0)%Z
  | JStr s => negb (String.eqb s "")
  | JArr items => match items with [] => false | _ => true end
  | JObj fields => match fields with [] => false | _ => true end
  end.

(** A method of [str] ([lower], [startswith]) applied to [v]: an
    [AttributeError] unless [v] is text. *)
Definition as_str (v : json) : option string :=
  match v with JStr s => Some s | _ => None end.

(** [v.get(...)]: an [AttributeError] unless [v] is a dict (a list has no
    [get] either). *)
Definition as_dict (v : json) : option dict :=
  match v with JObj fields => Some fields | _ => None end.

Definition is_str_eq (k : string) (v : json) : bool :=
  match v with JStr s => String.eqb k s | _ => false end.

(** [k in v] for a text [k]: key test on a dict, substring test on text,
    membership by [==] on a list, a [TypeError] on anything else. *)
Definition py_in (k : string) (v : json) : option bool :=
  match v with
  | JObj fields => Some (bool_decide (is_Some (dict_get k fields)))
  | JStr s => Some (Text.contains k s)
  | JArr items => Some (existsb (is_str_eq k) items)
  | _ => None
  end.

(** [v[k]] for a text [k]: only a dict can be indexed by text. *)
Definition py_subscript (v : json) (k : string) : option json :=
  match v with
  | JObj fields => dict_get k fields
  | _ => None
  end.

(** [for x in v]: the items of a list, the characters of a text, the keys
    of a dict; a [TypeError] on anything else. *)
Definition py_iter (v : json) : option (list json) :=
  match v with
  | JArr items => Some items
  | JStr s => Some (map (fun c => JStr (String c EmptyString)) (list_ascii_of_string s))
  | JObj fields => Some (map (fun kv => JStr (fst kv)) fields)
  | _ => None
  end.

(** ** [load_search_categories] and [categorize_workflow] *)

Definition load_search_categories : list (string * list string) :=
  [ ("marketing", ["lead"; "email"; "campaign"; "social"; "content"; "seo"; "analytics"]);
    ("sales", ["crm"; "deal"; "quote"; "invoice"; "customer"; "sales"; "pipeline"]);
    ("business-intelligence", ["report"; "dashboard"; "analytics"; "data"; "bi"; "metrics"]);
    ("automation", ["workflow"; "process"; "trigger"; "schedule"; "notification"]);
    ("communication", ["slack"; "email"; "chat"; "notification"; "message"]);
    ("finance", ["stripe"; "paypal"; "invoice"; "payment"; "accounting"]);
    ("productivity", ["calendar"; "task"; "todo"; "reminder"; "scheduling"]);
    ("e-commerce", ["shopify"; "woocommerce"; "product"; "order"; "inventory"]);
    ("hr", ["employee"; "recruitment"; "onboarding"; "time"; "leave"]);
    ("support", ["ticket"; "helpdesk"; "zendesk"; "support"; "customer-service"]) ].

(** The text that is scored:
    [f"{name} {description} {' '.join(integrations)}".lower()]. *)
Definition blob (name description : string) (integrations : list string) : string :=
  Text.lower (name ++ " " ++ description ++ " " ++ Text.join " " integrations).

(** [sum(1 for keyword in keywords if keyword in text)] *)
Definition score (text : string) (keywords : list string) : nat :=
  sum_list (map (fun _ => 1) (List.filter (fun keyword => Text.contains keyword text) keywords)).

(** The [scores] dict after the loop: the categories of positive score, in
    the order they were inserted. *)
Fixpoint build_scores (text : string) (categories : list (string * list string))
  : list (string * nat) :=
  match categories with
  | [] => []
  | (category, keywords) :: rest =>
      let s := score text keywords in
      if (0 <? s)%nat then (category, s) :: build_scores text rest
      else build_scores text rest
  end.

(** [max(items, key=...)] on a non-empty sequence [cur :: items]: the
    running maximum is replaced only by a strictly greater key. *)
Fixpoint py_max {A : Type} (key : A -> nat) (cur : A) (items : list A) : A :=
  match items with
  | [] => cur
  | x :: rest => if (key cur <? key x)%nat then py_max key x rest else py_max key cur rest
  end.

Definition categorize_text (text : string) : string :=
  match build_scores text load_search_categories with
  | [] => "automation"
  | first :: rest => fst (py_max snd first rest)
  end.

Definition categorize_workflow (name description : string) (integrations : list string)
  : string :=
  categorize_text (blob name description integrations).

(** ** [extract_integrations] *)

(** The clean-up of one node type (the body of the loop). *)
Definition clean_node_type (node_type : string) : string :=
  let node_type :=
    if Text.startswith "n8n-nodes-" node_type
    then Text.replace "n8n-nodes-" "" node_type else node_type in
  let node_type :=
    if Text.startswith "base." node_type
    then Text.replace "base." "" node_type else node_type in
  Text.title (Text.replace "-" " " node_type).

(** The loop over the nodes, threading the set [integrations]. *)
Fixpoint collect_integrations (nodes : list json) (integrations : gset string)
  : option (gset string) :=
  match nodes with
  | [] => Some integrations
  | node :: rest =>
      has_type ← py_in "type" node;
      if (has_type : bool) then
        v ← py_subscript node "type";
        node_type ← as_str v;
        collect_integrations rest (integrations ∪ {[ clean_node_type node_type ]})
      else collect_integrations rest integrations
  end.

Definition extract_integrations (workflow_data : dict) : option (list string) :=
  integrations ←
    match dict_get "nodes" workflow_data with
    | Some v => nodes ← py_iter v; collect_integrations nodes ∅
    | None => Some ∅
    end;
  Some (take 5 (elements (integrations : gset string))).

(** ** [process_workflow_file] and [main] *)

(** What the script sees of one discovered file: the stem and the relative
    form of its path ([Path(file_path).stem],
    [str(Path(file_path).relative_to('.'))]), the document [json.load]
    returns ([None] when opening or parsing raises), and the ISO-8601 text
    of its modification time ([None] when [os.stat] raises). *)
Record file : Type := {
  file_stem : string;
  file_rel : string;
  file_data : option json;
  file_mtime : option string
}.

(** The record built for one file.  [description] and [updated_at] hold
    whatever truthy value the document gives them. *)
Record workflow : Type := {
  wf_slug : string;
  wf_name : string;
  wf_description : json;
  wf_integrations : list string;
  wf_category : string;
  wf_gh_path : string;
  wf_updated_at : json
}.

(** The aggregated document written to [public/workflows.json]. *)
Record output_data : Type := {
  out_workflows : list workflow;
  out_total_count : nat;
  out_categories : list string;
  out_generated_at : string;
  out_version : string
}.

Section Pipeline.

(** The text an f-string gives a value that is not text (Python's [str] of
    a number, [None], a boolean, a list or a dict). *)
Variable py_str : json -> string.

Definition format_value (v : json) : string :=
  match v with JStr s => s | _ => py_str v end.

(** The body of the [try] block; [None] is the [except] branch. *)
Definition process_workflow_file (f : file) : option workflow :=
  data ← file_data f;
  d ← as_dict data;
  let name := default (JStr (file_stem f)) (dict_get "name" d) in
  let description := default (JStr "") (dict_get "description" d) in
  description ←
    (if truthy description then Some description
     else n ← as_str name; Some (JStr ("Automated workflow for " ++ Text.lower n)));
  integrations ← extract_integrations d;
  name_text ← as_str name;
  let slug := slugify name_text in
  let category := categorize_workflow name_text (format_value description) integrations in
  let updated_at := default JNull (dict_get "updatedAt" d) in
  updated_at ←
    (if truthy updated_at then Some updated_at
     else mtime ← file_mtime f; Some (JStr mtime));
  Some {| wf_slug := slug;
          wf_name := name_text;
          wf_description := description;
          wf_integrations := integrations;
          wf_category := category;
          wf_gh_path := file_rel f;
          wf_updated_at := updated_at |}.

(** The processing loop of [main], threading the list [workflows]. *)
Fixpoint process_all (workflow_files : list file) (workflows : list workflow)
  : list workflow :=
  match workflow_files with
  | [] => workflows
  | file_path :: rest =>
      match process_workflow_file file_path with
      | Some w => process_all rest (workflows ++ [w])
      | None => process_all rest workflows
      end
  end.

(** [main] after file discovery; [now] is [datetime.now().isoformat()]. *)
Definition main (workflow_files : list file) (now : string) : output_data :=
  let workflows := process_all workflow_files [] in
  {| out_workflows := workflows;
     out_total_count := length workflows;
     out_categories := elements (list_to_set (map wf_category workflows) : gset string);
     out_generated_at := now;
     out_version := "1.0" |}.

End Pipeline.

(** ** The shape of a slug *)

Definition is_slug_char (c : ascii) : bool :=
  Text.is_slug_alnum c || Ascii.eqb c Text.hyphen.

Fixpoint all_chars (p : ascii -> bool) (s : string) : bool :=
  match s with
  | EmptyString => true
  | String c r => p c && all_chars p r
  end.

Definition first_char (s : string) : option ascii :=
  match s with
  | EmptyString => None
  | String c _ => Some c
  end.

Fixpoint last_char (s : string) : option ascii :=
  match s with
  | EmptyString => None
  | String c EmptyString => Some c
  | String _ r => last_char r
  end.

(** Some character of [s] satisfies [p]. *)
Fixpoint any_char (p : ascii -> bool) (s : string) : bool :=
  match s with
  | EmptyString => false
  | String c r => p c || any_char p r
  end.

(** An ASCII letter or digit. *)
Definition is_alnum (c : ascii) : bool :=
  Text.is_upper c || Text.is_lower c || Text.is_digit c.

(** A character of the ASCII range, on which [Text.lower] and
    [Text.title] are Python's case mappings. *)
Definition is_ascii (c : ascii) : bool := (nat_of_ascii c <? 128)%nat.

(** No two hyphens in a row. *)
Fixpoint no_double_hyphen (s : string) : bool :=
  match s with
  | EmptyString => true
  | String c r =>
      negb (Ascii.eqb c Text.hyphen &&
            match first_char r with Some d => Ascii.eqb d Text.hyphen | None => false end)
      && no_double_hyphen r
  end.

(** Only characters of [[a-z0-9-]], no doubled hyphen, no hyphen at either
    end. *)
Record slug_shape (s : string) : Prop := {
  shape_chars : all_chars is_slug_char s = true;
  shape_single : no_double_hyphen s = true;
  shape_first : first_char s <> Some Text.hyphen;
  shape_last : last_char s <> Some Text.hyphen
}.

(** ** Vocabulary of the classifier's specification *)

(** The keywords of a category that occur in [text], as a set: each
    keyword counts once, however often it occurs. *)
Definition matching_keywords (text : string) (keywords : list string) : gset string :=
  filter (fun keyword => Text.contains keyword text = true) (list_to_set keywords).

(** Some keyword of some category occurs in [text]. *)
Definition keyword_occurs (text : string) : Prop :=
  exists category keywords keyword,
    (category, keywords) ∈ load_search_categories
    /\ keyword ∈ keywords
    /\ Text.contains keyword text = true.

(** The categories, in the order the taxonomy is iterated. *)
Definition taxonomy_keys : list string := map fst load_search_categories.

(** [category] is the first category of greatest score, and that score is
    positive: every category before it in the taxonomy scores strictly
    less, none after it scores more. *)
Definition first_best (text : string) (category : string) : Prop :=
  exists before keywords after,
    load_search_categories = (before ++ (category, keywords) :: after)%list
    /\ (0 < score text keywords)%nat
    /\ Forall (fun entry => (score text (snd entry) < score text keywords)%nat) before
    /\ Forall (fun entry => (score text (snd entry) <= score text keywords)%nat) after.

(** ** Vocabulary of the extractor's specification *)

(** The names the loop of [extract_integrations] adds, one per node that
    has a type, in node order and with repetitions. *)
Fixpoint node_names (nodes : list json) : option (list string) :=
  match nodes with
  | [] => Some []
  | node :: rest =>
      has_type ← py_in "type" node;
      if (has_type : bool) then
        v ← py_subscript node "type";
        node_type ← as_str v;
        names ← node_names rest;
        Some (clean_node_type node_type :: names)
      else node_names rest
  end.

(** The names a document's nodes yield; none when it has no [nodes]. *)
Definition document_names (workflow_data : dict) : option (list string) :=
  match dict_get "nodes" workflow_data with
  | Some v => nodes ← py_iter v; node_names nodes
  | None => Some []
  end.

(** The distinct names among [names]. *)
Definition distinct_names (names : list string) : gset string := list_to_set names.

(** [s[n:]] *)
Fixpoint drop_chars (n : nat) (s : string) : string :=
  match n, s with
  | O, _ => s
  | S n', String _ r => drop_chars n' r
  | S _, EmptyString => EmptyString
  end.

(** Removal of [prefix] where it leads [s], of that one occurrence only. *)
Definition strip_leading (prefix s : string) : string :=
  if Text.startswith prefix s then drop_chars (String.length prefix) s else s.

(** The clean-up of a node type as the specification words it: strip the
    leading marker, then a leading "base.", put spaces for hyphens,
    title-case. *)
Definition clean_node_type_spec (node_type : string) : string :=
  Text.title (Text.replace "-" " "
    (strip_leading "base." (strip_leading "n8n-nodes-" node_type))).

(** ** Sample documents *)

(** The sample documents below have no description that is not text, so
    the formatting of other values is never called on them; this function
    stands for it where a sample is processed. *)
Definition no_str : json -> string := fun _ => "".

Definition typed_node (node_type : string) : json := JObj [("type", JStr node_type)].

(** [{"name": "Lead Email Campaign", "nodes": [{"type": "n8n-nodes-base.gmail"}]}] *)
Definition lead_email_campaign : json :=
  JObj [("name", JStr "Lead Email Campaign");
        ("nodes", JArr [typed_node "n8n-nodes-base.gmail"])].

(** A document with six nodes of six different types. *)
Definition six_nodes : dict :=
  [("nodes", JArr [typed_node "n8n-nodes-base.gmail"; typed_node "n8n-nodes-base.slack";
                   typed_node "n8n-nodes-base.stripe"; typed_node "n8n-nodes-base.cron";
                   typed_node "n8n-nodes-base.set"; typed_node "n8n-nodes-base.if"])].

(** A document with three nodes of two different types. *)
Definition three_nodes : dict :=
  [("nodes", JArr [typed_node "n8n-nodes-base.gmail"; typed_node "n8n-nodes-base.slack";
                   typed_node "n8n-nodes-base.gmail"])].

Definition sample_file (stem : string) (data : option json) (mtime : option string) : file :=
  {| file_stem := stem;
     file_rel := "workflows/" ++ stem ++ ".json";
     file_data := data;
     file_mtime := mtime |}.

(** [{"name": ""}] *)
Definition empty_name_file : file :=
  sample_file "unnamed" (Some (JObj [("name", JStr "")])) (Some "2024-01-01T00:00:00").

(** [{"name": "Sync", "nodes": "abc"}]: the nodes are a text, not a list. *)
Definition text_nodes_file : file :=
  sample_file "sync" (Some (JObj [("name", JStr "Sync"); ("nodes", JStr "abc")]))
              (Some "2024-01-01T00:00:00").

(** [{"name": 7}] *)
Definition numeric_name_file : file :=
  sample_file "seven" (Some (JObj [("name", JNum 7)])) (Some "2024-01-01T00:00:00").

(** A file whose content is not JSON. *)
Definition broken_file : file := sample_file "broken" None (Some "2024-01-01T00:00:00").

Definition lead_file : file :=
  sample_file "lead" (Some lead_email_campaign) (Some "2024-01-01T00:00:00").

(** [{}] at [workflows/misc_task.json] *)
Definition misc_task_file : file :=
  sample_file "misc_task" (Some (JObj [])) (Some "2024-01-01T00:00:00").

(** [{"name": "Sync", "updatedAt": "2023-05-05T10:00:00.000Z"}] *)
Definition dated_file : file :=
  sample_file "sync"
    (Some (JObj [("name", JStr "Sync"); ("updatedAt", JStr "2023-05-05T10:00:00.000Z")]))
    (Some "2024-01-01T00:00:00").

(** ** File discovery in [main] *)

(** The substrings that exclude a path from the build. *)
Definition excluded_names : list string :=
  ["package.json"; "package-lock.json"; "tsconfig.json"; "node_modules"].

Definition glob_patterns : list string :=
  ["**/*.json"; "workflows/**/*.json"; "n8n/**/*.json"].

(** [not any(exclude in f for exclude in [...])] *)
Definition is_workflow_path (f : string) : bool :=
  negb (existsb (fun exclude => Text.contains exclude f) excluded_names).

(** The loop over the patterns, threading [workflow_files]; [glob] is
    [glob.glob(pattern, recursive=True)] on the tree being built. *)
Fixpoint collect_workflow_files (glob : string -> list string) (patterns : list string)
    (workflow_files : list string) : list string :=
  match patterns with
  | [] => workflow_files
  | pattern :: rest =>
      collect_workflow_files glob rest
        (workflow_files ++ List.filter is_workflow_path (glob pattern))
  end.

(** [list(set(workflow_files))] after the loop. *)
Definition discover_workflow_files (glob : string -> list string) : list string :=
  elements (list_to_set (collect_workflow_files glob glob_patterns []) : gset string).

(** ** Vocabulary of the further properties *)

(** The characters of [s] that satisfy [p], in order. *)
Fixpoint keep_chars (p : ascii -> bool) (s : string) : string :=
  match s with
  | EmptyString => EmptyString
  | String c r => if p c then String c (keep_chars p r) else keep_chars p r
  end.

Definition not_hyphen (c : ascii) : bool := negb (Ascii.eqb c Text.hyphen).

Definition not_space (c : ascii) : bool := negb (Ascii.eqb c " "%char).

(** A node as the script expects it: a dict whose [type], when it has
    one, is text. *)
Definition well_typed_node (node : json) : bool :=
  match node with
  | JObj fields =>
      match dict_get "type" fields with
      | Some (JStr _) | None => true
      | Some _ => false
      end
  | _ => false
  end.

(** The type of such a node, when it has one. *)
Definition node_type_of (node : json) : option string :=
  match node with
  | JObj fields =>
      match dict_get "type" fields with
      | Some (JStr node_type) => Some node_type
      | _ => None
      end
  | _ => None
  end.

(** The maximal runs of characters of [[a-z0-9]] in [s], in order. *)
Fixpoint alnum_words (s : string) : list string :=
  match s with
  | EmptyString => []
  | String c r =>
      if Text.is_slug_alnum c then
        match first_char r, alnum_words r with
        | Some d, w :: ws =>
            if Text.is_slug_alnum d then String c w :: ws
            else String c EmptyString :: w :: ws
        | _, ws => String c EmptyString :: ws
        end
      else alnum_words r
  end.

(** * Properties *)

Local Open Scope list_scope.
Local Open Scope nat_scope.

(** ** The model on concrete inputs *)

Example slugify_ex1 : slugify "Lead Email Campaign" = "lead-email-campaign".
Proof. reflexivity. Qed.

Example slugify_ex2 : slugify "--Hello,  World!--" = "hello-world".
Proof. reflexivity. Qed.

Example replace_ex1 : Text.replace "base." "" "base.database.query" = "dataquery".
Proof. reflexivity. Qed.

Example title_ex1 : Text.title "gmail2go trigger" = "Gmail2Go Trigger".
Proof. reflexivity. Qed.

Example clean_node_type_ex1 : clean_node_type "n8n-nodes-base.google-sheets" = "Google Sheets".
Proof. reflexivity. Qed.

Example clean_node_type_ex2 :
  clean_node_type "@n8n/n8n-nodes-langchain.agent" = "@N8N/N8N Nodes Langchain.Agent".
Proof. reflexivity. Qed.

(** Scenario 2 of the specification: the empty document at
    [workflows/misc_task.json]. *)
Example misc_task_record :
  process_workflow_file no_str misc_task_file
  = Some {| wf_slug := "misc-task";
            wf_name := "misc_task";
            wf_description := JStr "Automated workflow for misc_task";
            wf_integrations := [];
            wf_category := "automation";
            wf_gh_path := "workflows/misc_task.json";
            wf_updated_at := JStr "2024-01-01T00:00:00" |}.
Proof. reflexivity. Qed.

Example numeric_name_raises : process_workflow_file no_str numeric_name_file = None.
Proof. reflexivity. Qed.

(** ** Facts about characters *)

Section CharFacts.

Local Ltac by_cases c :=
  destruct c as [[] [] [] [] [] [] [] []]; vm_compute; try reflexivity; try discriminate.

Lemma hyphen_not_alnum : Text.is_slug_alnum Text.hyphen = false.
Proof. reflexivity. Qed.

Lemma lower_char_slug_char c : is_slug_char c = true -> Text.lower_char c = c.
Proof. by_cases c. Qed.

Lemma alnum_is_slug_char c : Text.is_slug_alnum c = true -> is_slug_char c = true.
Proof. unfold is_slug_char. intros ->. reflexivity. Qed.

Lemma alnum_not_hyphen c : Text.is_slug_alnum c = true -> Ascii.eqb c Text.hyphen = false.
Proof. by_cases c. Qed.

Lemma slug_char_cases c :
  is_slug_char c = true -> Text.is_slug_alnum c = true \/ c = Text.hyphen.
Proof.
  unfold is_slug_char. destruct (Text.is_slug_alnum c); [left; reflexivity|].
  simpl. intros H. right. apply Ascii.eqb_eq. exact H.
Qed.

End CharFacts.

(** ** [slugify]: shape of the result *)

Section SlugShape.

Import Text.

Lemma sub_runs_chars b s : all_chars is_slug_char (sub_runs b s) = true.
Proof.
  revert b. induction s as [|c r IH]; intros b; simpl; [reflexivity|].
  destruct (is_slug_alnum c) eqn:Hc.
  - simpl. rewrite (alnum_is_slug_char _ Hc), IH. reflexivity.
  - destruct b; [apply IH|]. simpl. rewrite IH. reflexivity.
Qed.

(** Inside a run nothing is emitted until the next alphanumeric
    character, so the output of [sub_runs true] never starts with a
    hyphen. *)
Lemma sub_runs_true_first s : first_char (sub_runs true s) <> Some hyphen.
Proof.
  induction s as [|c r IH]; simpl; [discriminate|].
  destruct (is_slug_alnum c) eqn:Hc; [|exact IH].
  simpl. intros [= ->]. rewrite hyphen_not_alnum in Hc. discriminate.
Qed.

Lemma first_not_hyphen_eqb s :
  first_char s <> Some hyphen ->
  match first_char s with Some d => Ascii.eqb d hyphen | None => false end = false.
Proof.
  destruct s as [|d r]; simpl; [reflexivity|].
  intros H. destruct (Ascii.eqb_spec d hyphen) as [->|]; [|reflexivity].
  exfalso. apply H. reflexivity.
Qed.

Lemma sub_runs_single b s : no_double_hyphen (sub_runs b s) = true.
Proof.
  revert b. induction s as [|c r IH]; intros b; simpl; [reflexivity|].
  destruct (is_slug_alnum c) eqn:Hc.
  - simpl. rewrite (alnum_not_hyphen _ Hc), IH. reflexivity.
  - destruct b; [apply IH|]. simpl.
    rewrite (first_not_hyphen_eqb _ (sub_runs_true_first r)), IH. reflexivity.
Qed.

Lemma lstrip_chars p s : all_chars p s = true -> all_chars p (lstrip_hyphen s) = true.
Proof.
  induction s as [|c r IH]; simpl; [reflexivity|].
  intros H. apply andb_prop in H as [Hc Hr].
  destruct (Ascii.eqb c hyphen); [apply IH, Hr|]. simpl. rewrite Hc, Hr. reflexivity.
Qed.

Lemma lstrip_single s : no_double_hyphen s = true -> no_double_hyphen (lstrip_hyphen s) = true.
Proof.
  induction s as [|c r IH]; simpl; [reflexivity|].
  intros H. destruct (Ascii.eqb c hyphen) eqn:Hc.
  - apply andb_prop in H as [_ Hr]. apply IH, Hr.
  - simpl. rewrite Hc. exact H.
Qed.

Lemma lstrip_first s : first_char (lstrip_hyphen s) <> Some hyphen.
Proof.
  induction s as [|c r IH]; simpl; [discriminate|].
  destruct (Ascii.eqb_spec c hyphen) as [->|Hne]; [exact IH|].
  simpl. intros [= ->]. apply Hne. reflexivity.
Qed.

(** [rstrip_hyphen] returns the empty text exactly on a text of hyphens;
    otherwise it keeps the first character. *)
Lemma rstrip_first s :
  first_char s <> Some hyphen -> first_char (rstrip_hyphen s) = first_char s.
Proof.
  destruct s as [|c r]; simpl; [reflexivity|].
  intros H. destruct (rstrip_hyphen r); [|reflexivity].
  destruct (Ascii.eqb_spec c hyphen) as [->|]; [|reflexivity].
  exfalso. apply H. reflexivity.
Qed.

Lemma rstrip_chars p s : all_chars p s = true -> all_chars p (rstrip_hyphen s) = true.
Proof.
  induction s as [|c r IH]; simpl; [reflexivity|].
  intros H. apply andb_prop in H as [Hc Hr]. specialize (IH Hr).
  destruct (rstrip_hyphen r) as [|d r'].
  - destruct (Ascii.eqb c hyphen); simpl; [reflexivity|]. rewrite Hc. reflexivity.
  - change (p c && all_chars p (String d r') = true). rewrite Hc. exact IH.
Qed.

Lemma rstrip_first_of_tail r d r' :
  rstrip_hyphen r = String d r' -> first_char r = Some d.
Proof.
  destruct r as [|c r0]; simpl; [discriminate|].
  destruct (rstrip_hyphen r0).
  - destruct (Ascii.eqb c hyphen); [discriminate|]. intros [= -> _]. reflexivity.
  - intros [= -> _]. reflexivity.
Qed.

Lemma rstrip_single s : no_double_hyphen s = true -> no_double_hyphen (rstrip_hyphen s) = true.
Proof.
  induction s as [|c r IH]; simpl; [reflexivity|].
  intros H. apply andb_prop in H as [Hc Hr]. specialize (IH Hr).
  destruct (rstrip_hyphen r) as [|d r'] eqn:E.
  - destruct (Ascii.eqb c hyphen); simpl; [reflexivity|].
    rewrite andb_false_r. reflexivity.
  - rewrite (rstrip_first_of_tail _ _ _ E) in Hc.
    change (negb (Ascii.eqb c hyphen && Ascii.eqb d hyphen)
            && no_double_hyphen (String d r') = true).
    rewrite Hc. exact IH.
Qed.

Lemma rstrip_last s : last_char (rstrip_hyphen s) <> Some hyphen.
Proof.
  induction s as [|c r IH]; simpl; [discriminate|].
  destruct (rstrip_hyphen r) as [|d r'].
  - destruct (Ascii.eqb_spec c hyphen) as [->|Hne]; simpl; [discriminate|].
    intros [= ->]. apply Hne. reflexivity.
  - exact IH.
Qed.

Lemma slugify_shape t : slug_shape (slugify t).
Proof.
  unfold slugify, strip_hyphen, re_sub_non_alnum.
  set (u := sub_runs false (lower t)).
  split.
  - apply rstrip_chars, lstrip_chars, sub_runs_chars.
  - apply rstrip_single, lstrip_single, sub_runs_single.
  - rewrite rstrip_first by apply lstrip_first. apply lstrip_first.
  - apply rstrip_last.
Qed.

End SlugShape.

(** ** [slugify]: a slug is a fixed point of every stage *)

Section SlugFixedPoint.

Import Text.

Lemma lower_slug_chars s : all_chars is_slug_char s = true -> lower s = s.
Proof.
  induction s as [|c r IH]; simpl; [reflexivity|].
  intros H. apply andb_prop in H as [Hc Hr].
  rewrite (lower_char_slug_char _ Hc), (IH Hr). reflexivity.
Qed.

(** On a text of slug characters without a doubled hyphen the pattern only
    ever matches a single hyphen, which is replaced by itself; inside a
    run ([b = true]) the text must not go on with a hyphen. *)
Lemma sub_runs_slug b s :
  all_chars is_slug_char s = true ->
  no_double_hyphen s = true ->
  (b = true -> first_char s <> Some hyphen) ->
  sub_runs b s = s.
Proof.
  revert b. induction s as [|c r IH]; intros b Hch Hnd Hb; simpl; [reflexivity|].
  simpl in Hch, Hnd.
  apply andb_prop in Hch as [Hc Hr]. apply andb_prop in Hnd as [Hd Hnd].
  destruct (slug_char_cases _ Hc) as [Ha| ->].
  - rewrite Ha. f_equal. apply IH; [exact Hr|exact Hnd|discriminate].
  - rewrite hyphen_not_alnum. destruct b.
    + exfalso. apply Hb; reflexivity.
    + f_equal. apply IH; [exact Hr|exact Hnd|]. intros _ E.
      rewrite E in Hd. vm_compute in Hd. discriminate.
Qed.

Lemma lstrip_no_leading s : first_char s <> Some hyphen -> lstrip_hyphen s = s.
Proof.
  destruct s as [|c r]; simpl; [reflexivity|].
  intros H. destruct (Ascii.eqb_spec c hyphen) as [->|]; [|reflexivity].
  exfalso. apply H. reflexivity.
Qed.

Lemma rstrip_no_trailing s : last_char s <> Some hyphen -> rstrip_hyphen s = s.
Proof.
  induction s as [|c r IH]; simpl; [reflexivity|].
  destruct r as [|d r'].
  - simpl. intros H. destruct (Ascii.eqb_spec c hyphen) as [->|]; [|reflexivity].
    exfalso. apply H. reflexivity.
  - intros H. rewrite (IH H). reflexivity.
Qed.

Lemma slugify_fixed s : slug_shape s -> slugify s = s.
Proof.
  intros [Hch Hnd Hf Hl]. unfold slugify, strip_hyphen, re_sub_non_alnum.
  rewrite (lower_slug_chars _ Hch).
  rewrite (sub_runs_slug false s Hch Hnd) by discriminate.
  rewrite (lstrip_no_leading _ Hf). apply rstrip_no_trailing, Hl.
Qed.

End SlugFixedPoint.

(** C6.  For every text [t], [slugify t] has only lower-case letters,
    digits and hyphens, no doubled hyphen and no hyphen at either end;
    [slugify] is idempotent; and it is defined on every text, the empty
    text included, which it maps to the empty text. *)
Theorem slugify_shape_idempotent_total :
  forall t : string,
    slug_shape (slugify t)
    /\ slugify (slugify t) = slugify t
    /\ (exists s, slugify t = s)
    /\ slugify "" = "".
Proof.
  intros t. split; [apply slugify_shape|].
  split; [apply slugify_fixed, slugify_shape|].
  split; [eexists; reflexivity|reflexivity].
Qed.

(** ** Scores *)

Section Scores.

Lemma sum_list_ones {A} (l : list A) : sum_list (map (fun _ => 1) l) = length l.
Proof. induction l as [|x l IH]; simpl; [reflexivity|]. rewrite IH. reflexivity. Qed.

Lemma score_length text keywords :
  score text keywords
  = length (List.filter (fun keyword => Text.contains keyword text) keywords).
Proof. unfold score. apply sum_list_ones. Qed.

Lemma matching_keywords_list text keywords :
  matching_keywords text keywords
  = list_to_set (List.filter (fun keyword => Text.contains keyword text) keywords).
Proof.
  unfold matching_keywords. apply set_eq. intros k.
  rewrite elem_of_filter, !elem_of_list_to_set, !list_elem_of_In, filter_In.
  tauto.
Qed.

(** The score counts each matching keyword once, as long as the keyword
    list does not repeat a keyword. *)
Lemma score_distinct text keywords :
  NoDup keywords -> score text keywords = size (matching_keywords text keywords).
Proof.
  intros Hnd. rewrite score_length, matching_keywords_list.
  symmetry. apply size_list_to_set.
  apply NoDup_ListNoDup, List.NoDup_filter, NoDup_ListNoDup, Hnd.
Qed.

Lemma score_positive text keywords :
  0 < score text keywords <->
  exists keyword, keyword ∈ keywords /\ Text.contains keyword text = true.
Proof.
  rewrite score_length. split.
  - destruct (List.filter _ keywords) as [|k l] eqn:E; simpl; [lia|].
    intros _. exists k. rewrite list_elem_of_In.
    apply (filter_In (fun keyword => Text.contains keyword text)).
    rewrite E. left. reflexivity.
  - intros (k & Hk & Hc). rewrite list_elem_of_In in Hk.
    assert (In k (List.filter (fun keyword => Text.contains keyword text) keywords)) as Hin
      by (apply filter_In; split; assumption).
    destruct (List.filter _ keywords); [destruct Hin|simpl; lia].
Qed.

Lemma taxonomy_all_distinct :
  Forall (fun entry => NoDup (snd entry)) load_search_categories.
Proof. apply (bool_decide_unpack _). vm_compute. exact I. Qed.

Lemma taxonomy_keywords_distinct category keywords :
  (category, keywords) ∈ load_search_categories -> NoDup keywords.
Proof.
  intros H. exact (proj1 (Forall_forall _ _) taxonomy_all_distinct _ H).
Qed.

End Scores.

(** ** Selection of the best category *)

Section Selection.

(** [py_max] returns the first element of greatest key. *)
Lemma py_max_first {A} (key : A -> nat) cur items :
  exists pre post,
    cur :: items = pre ++ py_max key cur items :: post
    /\ Forall (fun x => key x < key (py_max key cur items)) pre
    /\ Forall (fun x => key x <= key (py_max key cur items)) post.
Proof.
  revert cur. induction items as [|x rest IH]; intros cur; simpl.
  - exists [], []. split; [reflexivity|]. split; constructor.
  - destruct (Nat.ltb_spec (key cur) (key x)) as [Hlt|Hge].
    + destruct (IH x) as (pre & post & Heq & Hpre & Hpost).
      remember (py_max key x rest) as r eqn:Er. clear Er.
      exists (cur :: pre), post. split; [simpl; rewrite Heq; reflexivity|].
      split; [|exact Hpost]. constructor; [|exact Hpre].
      assert (key x <= key r) as Hx.
      { destruct pre as [|y pre']; simpl in Heq.
        - injection Heq as Hr _. rewrite Hr. lia.
        - injection Heq as Hy _. apply Forall_cons_1 in Hpre as [Hlt' _].
          rewrite Hy. lia. }
      lia.
    + destruct (IH cur) as (pre & post & Heq & Hpre & Hpost).
      remember (py_max key cur rest) as r eqn:Er. clear Er.
      destruct pre as [|y pre']; simpl in Heq.
      * injection Heq as Hr Hrest. exists [], (x :: post).
        split; [simpl; rewrite <- Hr, Hrest; reflexivity|].
        split; [constructor|]. constructor; [rewrite <- Hr; exact Hge|exact Hpost].
      * injection Heq as Hy Hrest. exists (cur :: x :: pre'), post.
        split; [simpl; rewrite Hrest; reflexivity|].
        apply Forall_cons_1 in Hpre as [Hc Hpre']. rewrite <- Hy in Hc.
        split; [|exact Hpost].
        constructor; [exact Hc|]. constructor; [lia|exact Hpre'].
Qed.

Lemma build_scores_positive text categories c s :
  (c, s) ∈ build_scores text categories -> 0 < s.
Proof.
  induction categories as [|[c0 k0] rest IH]; simpl; [intros H; inversion H|].
  destruct (Nat.ltb_spec 0 (score text k0)) as [Hpos|_]; [|exact IH].
  intros H. apply elem_of_cons in H as [[= -> ->]|H]; [exact Hpos|exact (IH H)].
Qed.

Lemma build_scores_member text categories c keywords :
  (c, keywords) ∈ categories -> 0 < score text keywords ->
  (c, score text keywords) ∈ build_scores text categories.
Proof.
  induction categories as [|[c0 k0] rest IH]; simpl; [intros H; inversion H|].
  intros H Hpos. apply elem_of_cons in H as [[= <- <-]|H].
  - destruct (Nat.ltb_spec 0 (score text keywords)); [left|lia].
  - destruct (0 <? score text k0); [right|]; apply IH; assumption.
Qed.

Lemma build_scores_nil text categories :
  build_scores text categories = [] ->
  Forall (fun entry => score text (snd entry) = 0) categories.
Proof.
  induction categories as [|[c0 k0] rest IH]; simpl; [constructor|].
  destruct (Nat.ltb_spec 0 (score text k0)) as [|Hz]; [discriminate|].
  intros H. constructor; [simpl; lia|exact (IH H)].
Qed.

(** A position in the [scores] dict with smaller scores before it and no
    greater score after it is such a position in the taxonomy too: the
    categories left out of the dict have score 0. *)
Lemma build_scores_split text categories pre c s post :
  build_scores text categories = pre ++ (c, s) :: post ->
  Forall (fun x => snd x < s) pre ->
  Forall (fun x => snd x <= s) post ->
  exists before keywords after,
    categories = before ++ (c, keywords) :: after
    /\ s = score text keywords
    /\ 0 < s
    /\ Forall (fun entry => score text (snd entry) < s) before
    /\ Forall (fun entry => score text (snd entry) <= s) after.
Proof.
  intros Heq Hpre Hpost.
  assert (0 < s) as Hs.
  { apply (build_scores_positive text categories c). rewrite Heq.
    apply elem_of_app. right. left. }
  revert pre Heq Hpre.
  induction categories as [|[c0 k0] rest IH]; intros pre Heq Hpre; simpl in Heq.
  - destruct pre; discriminate.
  - destruct (Nat.ltb_spec 0 (score text k0)) as [Hpos|Hzero].
    + destruct pre as [|p pre']; simpl in Heq.
      * injection Heq as -> <- Hrest. exists [], k0, rest.
        split; [reflexivity|]. split; [reflexivity|]. split; [exact Hs|].
        split; [constructor|]. apply Forall_forall. intros [c1 k1] Hin. simpl.
        destruct (Nat.ltb_spec 0 (score text k1)) as [Hp1|]; [|lia].
        pose proof (build_scores_member text rest c1 k1 Hin Hp1) as Hmem.
        rewrite Hrest in Hmem.
        exact (proj1 (Forall_forall _ _) Hpost _ Hmem).
      * injection Heq as <- Hrest. apply Forall_cons_1 in Hpre as [Hp Hpre'].
        destruct (IH pre' Hrest Hpre') as (before & kws & after & -> & E & _ & Hb & Ha).
        exists ((c0, k0) :: before), kws, after.
        split; [reflexivity|]. split; [exact E|]. split; [exact Hs|].
        split; [constructor; [exact Hp|exact Hb]|exact Ha].
    + destruct (IH pre Heq Hpre) as (before & kws & after & -> & E & _ & Hb & Ha).
      exists ((c0, k0) :: before), kws, after.
      split; [reflexivity|]. split; [exact E|]. split; [exact Hs|].
      split; [constructor; [simpl; lia|exact Hb]|exact Ha].
Qed.

(** What [categorize_text] returns: the default when every score is 0,
    otherwise the first category of greatest score. *)
Lemma categorize_text_cases text :
  (Forall (fun entry => score text (snd entry) = 0) load_search_categories
   /\ categorize_text text = "automation")
  \/ exists before keywords after,
       load_search_categories = before ++ (categorize_text text, keywords) :: after
       /\ 0 < score text keywords
       /\ Forall (fun entry => score text (snd entry) < score text keywords) before
       /\ Forall (fun entry => score text (snd entry) <= score text keywords) after.
Proof.
  unfold categorize_text.
  destruct (build_scores text load_search_categories) as [|first rest] eqn:E.
  - left. split; [apply build_scores_nil, E|reflexivity].
  - right.
    destruct (py_max_first snd first rest) as (pre & post & Heq & Hpre & Hpost).
    destruct (py_max snd first rest) as [c s] eqn:Em.
    change (fst (c, s)) with c. rewrite Heq in E.
    destruct (build_scores_split _ _ _ _ _ _ E Hpre Hpost)
      as (before & kws & after & Hcat & -> & Hs & Hb & Ha).
    exists before, kws, after. auto.
Qed.

End Selection.

(** ** The classifier's result *)

Section Classifier.

Lemma first_max_unique {A} (f : A -> nat) l b1 x1 a1 b2 x2 a2 :
  l = b1 ++ x1 :: a1 -> l = b2 ++ x2 :: a2 ->
  Forall (fun y => f y < f x1) b1 -> Forall (fun y => f y <= f x1) a1 ->
  Forall (fun y => f y < f x2) b2 -> Forall (fun y => f y <= f x2) a2 ->
  x1 = x2.
Proof.
  revert l b2. induction b1 as [|y b1 IH]; intros l b2 -> E Hb1 Ha1 Hb2 Ha2.
  - destruct b2 as [|y2 b2]; simpl in E.
    + injection E as -> _. reflexivity.
    + injection E as -> ->. exfalso.
      apply Forall_cons_1 in Hb2 as [Hlt _].
      apply Forall_app in Ha1 as [_ Ha1]. apply Forall_cons_1 in Ha1 as [Hle _]. lia.
  - destruct b2 as [|y2 b2]; simpl in E.
    + injection E as -> <-. exfalso.
      apply Forall_cons_1 in Hb1 as [Hlt _].
      apply Forall_app in Ha2 as [_ Ha2]. apply Forall_cons_1 in Ha2 as [Hle _]. lia.
    + injection E as _ E.
      apply Forall_cons_1 in Hb1 as [_ Hb1]. apply Forall_cons_1 in Hb2 as [_ Hb2].
      exact (IH _ b2 eq_refl E Hb1 Ha1 Hb2 Ha2).
Qed.

Lemma taxonomy_names_distinct : NoDup taxonomy_keys.
Proof. apply (bool_decide_unpack _). vm_compute. exact I. Qed.

Lemma first_best_unique text c1 c2 : first_best text c1 -> first_best text c2 -> c1 = c2.
Proof.
  intros (b1 & k1 & a1 & E1 & _ & Hb1 & Ha1) (b2 & k2 & a2 & E2 & _ & Hb2 & Ha2).
  pose proof (first_max_unique (fun entry => score text (snd entry))
                _ _ _ _ _ _ _ E1 E2 Hb1 Ha1 Hb2 Ha2) as E.
  injection E as -> _. reflexivity.
Qed.

Lemma no_keyword_scores text :
  ~ keyword_occurs text <->
  Forall (fun entry => score text (snd entry) = 0) load_search_categories.
Proof.
  split.
  - intros Hno. apply Forall_forall. intros [c kws] Hin. simpl.
    destruct (Nat.eq_dec (score text kws) 0) as [|Hne]; [assumption|].
    exfalso. apply Hno.
    destruct (proj1 (score_positive text kws)) as (k & Hk & Hc); [lia|].
    exists c, kws, k. auto.
  - intros Hall (c & kws & k & Hin & Hk & Hc).
    pose proof (proj1 (Forall_forall _ _) Hall _ Hin) as Hz. simpl in Hz.
    assert (0 < score text kws) by (apply score_positive; eauto). lia.
Qed.

Lemma first_best_keyword text category : first_best text category -> keyword_occurs text.
Proof.
  intros (before & kws & after & E & Hpos & _).
  apply score_positive in Hpos as (k & Hk & Hc).
  exists category, kws, k. split; [|auto].
  rewrite E. apply elem_of_app. right. left.
Qed.

Lemma first_best_in_taxonomy text category : first_best text category -> category ∈ taxonomy_keys.
Proof.
  intros (before & kws & after & E & _). unfold taxonomy_keys. rewrite E.
  rewrite map_app. apply elem_of_app. right. left.
Qed.

(** The two ways [categorize_text] ends. *)
Lemma categorize_text_spec text :
  (~ keyword_occurs text /\ categorize_text text = "automation")
  \/ first_best text (categorize_text text).
Proof.
  destruct (categorize_text_cases text) as [[Hall E]|H].
  - left. split; [apply no_keyword_scores, Hall|exact E].
  - right. exact H.
Qed.

Lemma categorize_result_in_taxonomy name description integrations :
  categorize_workflow name description integrations ∈ taxonomy_keys.
Proof.
  unfold categorize_workflow.
  destruct (categorize_text_spec (blob name description integrations)) as [[_ E]|Hbest].
  - rewrite E. do 3 right. left.
  - exact (first_best_in_taxonomy _ _ Hbest).
Qed.

End Classifier.

(** C4.  The score of a category is the number of its distinct keywords
    that occur in the lower-cased blob, and when some category has a
    positive score the result is the first category of greatest score in
    the taxonomy order marketing, sales, business-intelligence,
    automation, communication, finance, productivity, e-commerce, hr,
    support. *)
Theorem categorize_workflow_first_best :
  forall (name description : string) (integrations : list string),
    taxonomy_keys
    = ["marketing"; "sales"; "business-intelligence"; "automation"; "communication";
       "finance"; "productivity"; "e-commerce"; "hr"; "support"]
    /\ (forall category keywords,
          (category, keywords) ∈ load_search_categories ->
          score (blob name description integrations) keywords
          = size (matching_keywords (blob name description integrations) keywords))
    /\ ((exists category keywords,
           (category, keywords) ∈ load_search_categories
           /\ 0 < score (blob name description integrations) keywords) ->
        first_best (blob name description integrations)
                   (categorize_workflow name description integrations)
        /\ forall category,
             first_best (blob name description integrations) category ->
             category = categorize_workflow name description integrations).
Proof.
  intros name description integrations.
  split; [reflexivity|]. split.
  - intros c kws Hin. apply score_distinct.
    exact (taxonomy_keywords_distinct c kws Hin).
  - intros (c & kws & Hin & Hpos). unfold categorize_workflow.
    assert (first_best (blob name description integrations)
              (categorize_text (blob name description integrations))) as Hbest.
    { destruct (categorize_text_spec (blob name description integrations))
        as [[Hno _]|H]; [|exact H].
      exfalso. apply Hno. apply score_positive in Hpos as (k & Hk & Hc).
      exists c, kws, k. auto. }
    split; [exact Hbest|].
    intros c' Hc'. exact (first_best_unique _ _ _ Hc' Hbest).
Qed.

Lemma categorize_workflow_first_best_witness :
  first_best (blob "Lead Email Campaign" "" ["Gmail"])
             (categorize_workflow "Lead Email Campaign" "" ["Gmail"])
  /\ categorize_workflow "Lead Email Campaign" "" ["Gmail"] = "marketing".
Proof.
  split; [|reflexivity].
  apply (categorize_workflow_first_best "Lead Email Campaign" "" ["Gmail"]).
  exists "marketing", ["lead"; "email"; "campaign"; "social"; "content"; "seo"; "analytics"].
  split; [left|vm_compute; lia].
Defined.

(** C1, as stated, fails: on the name "workflow" the result is the
    category 'automation', chosen for its own keyword "workflow", although
    a taxonomy keyword occurs in the blob. *)
Lemma categorize_default_iff_fails :
  ~ (categorize_workflow "workflow" "" [] = "automation"
     <-> ~ keyword_occurs (blob "workflow" "" [])).
Proof.
  intros [Hto _]. apply Hto; [reflexivity|].
  exists "automation", ["workflow"; "process"; "trigger"; "schedule"; "notification"],
         "workflow".
  split; [|split; [left|reflexivity]].
  do 3 right. left.
Qed.

(** C1, amended.  [categorize_workflow] always returns one of the ten
    taxonomy categories; it returns 'automation' exactly when no taxonomy
    keyword occurs in the blob or 'automation' is itself the first
    category of greatest score. *)
Theorem categorize_workflow_in_taxonomy :
  forall (name description : string) (integrations : list string),
    categorize_workflow name description integrations ∈ taxonomy_keys
    /\ length taxonomy_keys = 10
    /\ (categorize_workflow name description integrations = "automation"
        <-> ~ keyword_occurs (blob name description integrations)
            \/ first_best (blob name description integrations) "automation").
Proof.
  intros name description integrations. unfold categorize_workflow.
  set (text := blob name description integrations).
  destruct (categorize_text_spec text) as [[Hno E]|Hbest].
  - split; [|split; [reflexivity|]].
    + rewrite E. do 3 right. left.
    + split; [intros _; left; exact Hno|intros _; exact E].
  - split; [exact (first_best_in_taxonomy _ _ Hbest)|]. split; [reflexivity|]. split.
    + intros E. right. rewrite <- E. exact Hbest.
    + intros [Hno|Hauto].
      * exfalso. apply Hno. exact (first_best_keyword _ _ Hbest).
      * exact (first_best_unique _ _ _ Hbest Hauto).
Qed.

Lemma categorize_workflow_in_taxonomy_witness :
  categorize_workflow "Lead Email Campaign" "" ["Gmail"] ∈ taxonomy_keys
  /\ length taxonomy_keys = 10
  /\ (categorize_workflow "Lead Email Campaign" "" ["Gmail"] = "automation"
      <-> ~ keyword_occurs (blob "Lead Email Campaign" "" ["Gmail"])
          \/ first_best (blob "Lead Email Campaign" "" ["Gmail"]) "automation").
Proof. apply (categorize_workflow_in_taxonomy "Lead Email Campaign" "" ["Gmail"]). Defined.

(** ** The integration extractor *)

Section Extractor.

(** The set the loop builds is the set of the names it goes through. *)
Lemma collect_integrations_names nodes (acc : gset string) :
  collect_integrations nodes acc
  = (fun names => acc ∪ distinct_names names) <$> node_names nodes.
Proof.
  revert acc. induction nodes as [|node rest IH]; intros acc; simpl.
  - f_equal. unfold distinct_names. rewrite list_to_set_nil, (right_id_L ∅ (∪)). reflexivity.
  - destruct (py_in "type" node) as [[|]|]; simpl; [|apply IH|reflexivity].
    destruct (py_subscript node "type") as [v|]; simpl; [|reflexivity].
    destruct (as_str v) as [node_type|]; simpl; [|reflexivity].
    rewrite IH. destruct (node_names rest) as [names|]; simpl; [|reflexivity].
    f_equal. unfold distinct_names. rewrite list_to_set_cons, (assoc_L (∪)). reflexivity.
Qed.

Lemma extract_integrations_names workflow_data :
  extract_integrations workflow_data
  = (fun names => take 5 (elements (distinct_names names))) <$> document_names workflow_data.
Proof.
  unfold extract_integrations, document_names.
  destruct (dict_get "nodes" workflow_data) as [v|]; simpl; [|reflexivity].
  destruct (py_iter v) as [nodes|]; simpl; [|reflexivity].
  rewrite collect_integrations_names.
  destruct (node_names nodes) as [names|]; simpl; [|reflexivity].
  rewrite (left_id_L ∅ (∪)). reflexivity.
Qed.

Lemma take_elements_length (X : gset string) : length (take 5 (elements X)) = min 5 (size X).
Proof. rewrite length_take. reflexivity. Qed.

Lemma extract_integrations_at_most_5 workflow_data result :
  extract_integrations workflow_data = Some result -> length result <= 5.
Proof.
  rewrite extract_integrations_names.
  destruct (document_names workflow_data) as [names|]; simpl; [|discriminate].
  intros [= <-]. rewrite take_elements_length. lia.
Qed.

End Extractor.

(** C2.  When the nodes of a document yield names, [extract_integrations]
    returns a list: of length exactly 5 when more than 5 of the names are
    distinct, and otherwise a list whose set of entries is exactly the set
    of distinct names; a document without a [nodes] field gives the empty
    list. *)
Theorem extract_integrations_five_or_all :
  forall (workflow_data : dict),
    (forall names,
       document_names workflow_data = Some names ->
       exists result,
         extract_integrations workflow_data = Some result
         /\ (5 < size (distinct_names names) -> length result = 5)
         /\ (size (distinct_names names) <= 5 ->
             list_to_set result = distinct_names names
             /\ length result = size (distinct_names names)))
    /\ (dict_get "nodes" workflow_data = None ->
        extract_integrations workflow_data = Some []).
Proof.
  intros workflow_data. split.
  - intros names Hnames. rewrite extract_integrations_names, Hnames. simpl.
    eexists. split; [reflexivity|]. split.
    + intros Hgt. rewrite take_elements_length. lia.
    + intros Hle. rewrite take_ge by exact Hle.
      split; [apply list_to_set_elements_L|reflexivity].
  - intros Hnone. unfold extract_integrations. rewrite Hnone. simpl.
    rewrite elements_empty. reflexivity.
Qed.

Lemma extract_integrations_five_or_all_witness :
  (exists result, extract_integrations six_nodes = Some result /\ length result = 5)
  /\ (exists result,
        extract_integrations three_nodes = Some result
        /\ list_to_set result = distinct_names ["Gmail"; "Slack"; "Gmail"])
  /\ extract_integrations [] = Some [].
Proof.
  split; [|split].
  - destruct (proj1 (extract_integrations_five_or_all six_nodes)
                ["Gmail"; "Slack"; "Stripe"; "Cron"; "Set"; "If"] eq_refl)
      as (result & E & Hgt & _).
    exists result. split; [exact E|]. apply Hgt. vm_compute. lia.
  - destruct (proj1 (extract_integrations_five_or_all three_nodes)
                ["Gmail"; "Slack"; "Gmail"] eq_refl)
      as (result & E & _ & Hle).
    exists result. split; [exact E|]. apply Hle. vm_compute. lia.
  - apply (proj2 (extract_integrations_five_or_all [])). reflexivity.
Defined.

(** ** The clean-up of a node type *)

Section CleanUp.

Import Text.

Lemma replace_from_skip k old new s :
  replace_from k old new s = replace_from 0 old new (drop_chars k s).
Proof.
  revert k. induction s as [|c r IH]; intros [|k]; try reflexivity.
  simpl. apply IH.
Qed.

(** Replacing a leading occurrence by nothing drops it and goes on with
    the rest of the text. *)
Lemma replace_leading old s :
  startswith old s = true -> old <> "" ->
  replace old "" s = replace old "" (drop_chars (String.length old) s).
Proof.
  intros Hs Hne. destruct old as [|a old']; [contradiction|].
  destruct s as [|c r]; [discriminate|].
  unfold replace. unfold replace_from at 1; fold replace_from. rewrite Hs.
  simpl. rewrite Nat.sub_0_r. apply replace_from_skip.
Qed.

Lemma replace_absent old new s : contains old s = false -> replace old new s = s.
Proof.
  unfold replace. induction s as [|c r IH]; [reflexivity|].
  intros H. simpl in H. apply orb_false_elim in H as [Hs Hr].
  unfold replace_from; fold replace_from. rewrite Hs, (IH Hr). reflexivity.
Qed.

Lemma replace_leading_only old s :
  old <> "" -> contains old (strip_leading old s) = false ->
  (if startswith old s then replace old "" s else s) = strip_leading old s.
Proof.
  unfold strip_leading. intros Hne H. destruct (startswith old s) eqn:Hs; [|reflexivity].
  rewrite (replace_leading old s Hs Hne). apply replace_absent, H.
Qed.

End CleanUp.

(** C3.  The loop body of [extract_integrations] agrees with the stated
    clean-up (strip the leading marker, strip a leading "base.", spaces
    for hyphens, title case) on every node type in which neither marker
    occurs again after its leading occurrence; on
    "n8n-nodes-base.database.query" it does not: it gives "Dataquery",
    having also removed the "base." inside "database.", where the stated
    clean-up gives "Database.Query". *)
Theorem clean_node_type_removes_inner_occurrence :
  forall node_type : string,
    Text.contains "n8n-nodes-" (strip_leading "n8n-nodes-" node_type) = false ->
    Text.contains "base." (strip_leading "base." (strip_leading "n8n-nodes-" node_type))
    = false ->
    clean_node_type node_type = clean_node_type_spec node_type
    /\ clean_node_type "n8n-nodes-base.database.query" = "Dataquery"
    /\ clean_node_type_spec "n8n-nodes-base.database.query" = "Database.Query".
Proof.
  intros node_type H1 H2. split; [|split; reflexivity].
  unfold clean_node_type, clean_node_type_spec.
  rewrite (replace_leading_only "n8n-nodes-" node_type) by (discriminate || exact H1).
  rewrite (replace_leading_only "base." _) by (discriminate || exact H2).
  reflexivity.
Qed.

Lemma clean_node_type_removes_inner_occurrence_witness :
  clean_node_type "n8n-nodes-base.gmail" = clean_node_type_spec "n8n-nodes-base.gmail"
  /\ clean_node_type "n8n-nodes-base.database.query" = "Dataquery"
  /\ clean_node_type_spec "n8n-nodes-base.database.query" = "Database.Query".
Proof.
  apply (clean_node_type_removes_inner_occurrence "n8n-nodes-base.gmail"); reflexivity.
Defined.

(** C9.  The document of scenario 1 gives the slug "lead-email-campaign",
    the integrations ["Gmail"] and the category "marketing", whatever the
    path and the modification time of its file. *)
Theorem lead_email_campaign_record :
  forall (py_str : json -> string) (stem rel mtime : string),
    process_workflow_file py_str
      {| file_stem := stem; file_rel := rel;
         file_data := Some lead_email_campaign; file_mtime := Some mtime |}
    = Some {| wf_slug := "lead-email-campaign";
              wf_name := "Lead Email Campaign";
              wf_description := JStr "Automated workflow for lead email campaign";
              wf_integrations := ["Gmail"];
              wf_category := "marketing";
              wf_gh_path := rel;
              wf_updated_at := JStr mtime |}.
Proof. intros py_str stem rel mtime. reflexivity. Qed.

(** ** When the slug is empty *)

Section EmptySlug.

Import Text.

Lemma lower_char_alnum c : is_slug_alnum (lower_char c) = is_alnum c.
Proof. destruct c as [[] [] [] [] [] [] [] []]; reflexivity. Qed.

Lemma any_alnum_sub_runs b s :
  any_char is_slug_alnum (sub_runs b s) = any_char is_slug_alnum s.
Proof.
  revert b. induction s as [|c r IH]; intros b; simpl; [reflexivity|].
  destruct (is_slug_alnum c) eqn:Hc; simpl.
  - rewrite Hc. reflexivity.
  - destruct b; [apply IH|].
    change (is_slug_alnum hyphen || any_char is_slug_alnum (sub_runs true r)
            = any_char is_slug_alnum r).
    rewrite hyphen_not_alnum. apply IH.
Qed.

Lemma any_alnum_lstrip s :
  any_char is_slug_alnum (lstrip_hyphen s) = any_char is_slug_alnum s.
Proof.
  induction s as [|c r IH]; simpl; [reflexivity|].
  destruct (Ascii.eqb_spec c hyphen) as [->|]; [|reflexivity].
  rewrite hyphen_not_alnum. exact IH.
Qed.

Lemma any_alnum_rstrip s :
  any_char is_slug_alnum (rstrip_hyphen s) = any_char is_slug_alnum s.
Proof.
  induction s as [|c r IH]; simpl; [reflexivity|].
  destruct (rstrip_hyphen r) as [|d r'].
  - simpl in IH. rewrite <- IH.
    destruct (Ascii.eqb_spec c hyphen) as [->|]; reflexivity.
  - change (is_slug_alnum c || any_char is_slug_alnum (String d r')
            = is_slug_alnum c || any_char is_slug_alnum r).
    rewrite IH. reflexivity.
Qed.

Lemma any_alnum_slugify t :
  any_char is_slug_alnum (slugify t) = any_char is_slug_alnum (lower t).
Proof.
  unfold slugify, strip_hyphen, re_sub_non_alnum.
  rewrite any_alnum_rstrip, any_alnum_lstrip, any_alnum_sub_runs. reflexivity.
Qed.

(** A slug without a letter or digit would start with a hyphen. *)
Lemma slug_shape_no_alnum s :
  slug_shape s -> any_char is_slug_alnum s = false -> s = "".
Proof.
  intros [Hch _ Hf _]. destruct s as [|c r]; [reflexivity|]. simpl in *.
  intros Hany. apply orb_false_elim in Hany as [Hc _].
  apply andb_prop in Hch as [Hsc _].
  destruct (slug_char_cases _ Hsc) as [Ha| ->]; [congruence|].
  exfalso. apply Hf. reflexivity.
Qed.

Lemma slugify_empty_iff t :
  slugify t = "" <-> any_char is_slug_alnum (lower t) = false.
Proof.
  rewrite <- any_alnum_slugify. split.
  - intros ->. reflexivity.
  - apply slug_shape_no_alnum, slugify_shape.
Qed.

End EmptySlug.

(** ** The record builder *)

Section RecordBuilder.

Variable py_str : json -> string.

(** What a built record tells about the file it was built from. *)
Lemma process_workflow_file_inv f w :
  process_workflow_file py_str f = Some w ->
  exists d,
    file_data f = Some (JObj d)
    /\ default (JStr (file_stem f)) (dict_get "name" d) = JStr (wf_name w)
    /\ extract_integrations d = Some (wf_integrations w)
    /\ wf_slug w = slugify (wf_name w)
    /\ wf_description w
       = (if truthy (default (JStr "") (dict_get "description" d))
          then default (JStr "") (dict_get "description" d)
          else JStr ("Automated workflow for " ++ Text.lower (wf_name w))%string)
    /\ wf_category w
       = categorize_workflow (wf_name w) (format_value py_str (wf_description w))
                             (wf_integrations w)
    /\ wf_gh_path w = file_rel f
    /\ (if truthy (default JNull (dict_get "updatedAt" d))
        then wf_updated_at w = default JNull (dict_get "updatedAt" d)
        else exists mtime, file_mtime f = Some mtime /\ wf_updated_at w = JStr mtime).
Proof.
  unfold process_workflow_file. intros H.
  destruct (file_data f) as [[| | | |?|d]|]; simpl in H; try discriminate H.
  exists d. split; [reflexivity|].
  destruct (truthy (default (JStr "") (dict_get "description" d))) eqn:Ed;
    destruct (default (JStr (file_stem f)) (dict_get "name" d)) as [| | |name| |] eqn:En;
    simpl in H; try discriminate H;
    (destruct (extract_integrations d) as [integrations|]; simpl in H;
     try discriminate H);
    (destruct (truthy (default JNull (dict_get "updatedAt" d))) eqn:Eu; simpl in H;
     [|destruct (file_mtime f) as [mtime|]; simpl in H; [|discriminate H]]);
    injection H as <-; simpl; repeat (split; [reflexivity|]); eauto.
Qed.

(** A document that is a dict with a text name (or none), nodes that
    yield names, and a usable time stamp is built into a record. *)
Lemma process_workflow_file_builds f d name names :
  file_data f = Some (JObj d) ->
  default (JStr (file_stem f)) (dict_get "name" d) = JStr name ->
  document_names d = Some names ->
  (truthy (default JNull (dict_get "updatedAt" d)) = true \/ is_Some (file_mtime f)) ->
  is_Some (process_workflow_file py_str f).
Proof.
  intros Hd Hn Hnames Ht. unfold process_workflow_file.
  rewrite Hd. simpl. rewrite Hn. simpl.
  rewrite extract_integrations_names, Hnames. simpl.
  destruct (truthy (default (JStr "") (dict_get "description" d))); simpl;
    (destruct (truthy (default JNull (dict_get "updatedAt" d))); simpl;
     [eexists; reflexivity|]);
    (destruct Ht as [Ht|[m Hm]]; [discriminate|]; rewrite Hm; simpl;
     eexists; reflexivity).
Qed.

(** The three ways the [try] block raises before any record is built:
    the file does not parse, the document is not a dict, or the time stamp
    has to come from a file whose metadata cannot be read. *)
Lemma process_workflow_file_raises f :
  file_data f = None
  \/ (exists v, file_data f = Some v /\ as_dict v = None)
  \/ (exists d, file_data f = Some (JObj d)
                /\ truthy (default JNull (dict_get "updatedAt" d)) = false
                /\ file_mtime f = None) ->
  process_workflow_file py_str f = None.
Proof.
  unfold process_workflow_file.
  intros [H|[(v & H & Hv)|(d & H & Hu & Hm)]]; rewrite H; simpl; [reflexivity| |].
  - rewrite Hv. reflexivity.
  - rewrite Hu, Hm.
    destruct (truthy (default (JStr "") (dict_get "description" d)));
      destruct (default (JStr (file_stem f)) (dict_get "name" d)); simpl;
      try reflexivity; destruct (extract_integrations d); reflexivity.
Qed.

End RecordBuilder.

(** C5, as stated, fails: the document [{"name": ""}] is built into a
    record, and the slug of that record is empty. *)
Lemma empty_name_record_has_empty_slug :
  wf_slug <$> process_workflow_file no_str empty_name_file = Some "".
Proof. reflexivity. Qed.

(** C5, amended.  Every built record has at most 5 integrations, a
    category among the taxonomy keys (the default 'automation' is one of
    them) and a slug of lower-case letters, digits and hyphens without a
    leading, trailing or doubled hyphen; the slug is non-empty exactly
    when the lower-cased name has a character of [[a-z0-9]], so an empty
    name gives the empty slug. *)
Theorem built_record_invariants :
  forall (py_str : json -> string) (f : file) (w : workflow),
    process_workflow_file py_str f = Some w ->
    length (wf_integrations w) <= 5
    /\ wf_category w ∈ taxonomy_keys
    /\ "automation" ∈ taxonomy_keys
    /\ slug_shape (wf_slug w)
    /\ (wf_slug w <> ""
        <-> any_char Text.is_slug_alnum (Text.lower (wf_name w)) = true).
Proof.
  intros py_str f w H.
  destruct (process_workflow_file_inv py_str f w H)
    as (d & _ & _ & Hint & Hslug & _ & Hcat & _).
  split; [exact (extract_integrations_at_most_5 d _ Hint)|].
  split; [rewrite Hcat; apply categorize_result_in_taxonomy|].
  split; [do 3 right; left|].
  rewrite Hslug. split; [apply slugify_shape|].
  rewrite slugify_empty_iff.
  destruct (any_char Text.is_slug_alnum (Text.lower (wf_name w))); split; congruence.
Qed.

Lemma built_record_invariants_witness :
  exists w,
    process_workflow_file no_str lead_file = Some w
    /\ length (wf_integrations w) <= 5
    /\ wf_category w ∈ taxonomy_keys
    /\ "automation" ∈ taxonomy_keys
    /\ slug_shape (wf_slug w)
    /\ (wf_slug w <> ""
        <-> any_char Text.is_slug_alnum (Text.lower (wf_name w)) = true).
Proof.
  eexists. split; [reflexivity|].
  apply (built_record_invariants no_str lead_file). reflexivity.
Defined.

(** C7.  In a built record, [updated_at] is the document's [updatedAt]
    when that field is a non-empty text, and the ISO-8601 text of the
    file's modification time when the field is absent or is the empty
    text. *)
Theorem updated_at_document_or_mtime :
  forall (py_str : json -> string) (f : file) (w : workflow),
    process_workflow_file py_str f = Some w ->
    exists d,
      file_data f = Some (JObj d)
      /\ (forall s, dict_get "updatedAt" d = Some (JStr s) -> s <> "" ->
                    wf_updated_at w = JStr s)
      /\ (dict_get "updatedAt" d = None \/ dict_get "updatedAt" d = Some (JStr "") ->
          exists mtime, file_mtime f = Some mtime /\ wf_updated_at w = JStr mtime).
Proof.
  intros py_str f w H.
  destruct (process_workflow_file_inv py_str f w H)
    as (d & Hd & _ & _ & _ & _ & _ & _ & Hu).
  exists d. split; [exact Hd|]. split.
  - intros s Hs Hne. rewrite Hs in Hu. simpl in Hu.
    destruct (String.eqb_spec s ""); [contradiction|exact Hu].
  - intros [Hs|Hs]; rewrite Hs in Hu; exact Hu.
Qed.

Lemma updated_at_document_or_mtime_witness :
  (exists w, process_workflow_file no_str dated_file = Some w
             /\ wf_updated_at w = JStr "2023-05-05T10:00:00.000Z")
  /\ (exists w, process_workflow_file no_str misc_task_file = Some w
                /\ wf_updated_at w = JStr "2024-01-01T00:00:00").
Proof.
  split.
  - eexists. split; [reflexivity|].
    destruct (updated_at_document_or_mtime no_str dated_file _ eq_refl)
      as (d & Hd & Hdoc & _).
    injection Hd as <-. apply Hdoc; [reflexivity|discriminate].
  - eexists. split; [reflexivity|].
    destruct (updated_at_document_or_mtime no_str misc_task_file _ eq_refl)
      as (d & Hd & _ & Hmtime).
    injection Hd as <-. destruct Hmtime as (mtime & Hm & E); [left; reflexivity|].
    injection Hm as <-. exact E.
Defined.

(** ** The processing loop *)

Section Loop.

Variable py_str : json -> string.

Lemma process_all_omap files workflows :
  process_all py_str files workflows
  = workflows ++ omap (process_workflow_file py_str) files.
Proof.
  revert workflows. induction files as [|f rest IH]; intros workflows; simpl.
  - rewrite app_nil_r. reflexivity.
  - destruct (process_workflow_file py_str f) as [w|]; rewrite IH; [|reflexivity].
    rewrite <- app_assoc. reflexivity.
Qed.

Lemma main_workflows files now :
  out_workflows (main py_str files now) = omap (process_workflow_file py_str) files.
Proof. unfold main. simpl. apply process_all_omap. Qed.

End Loop.

(** C8.  A file whose processing raises (it does not parse, a field
    access fails, its metadata cannot be read when needed, or anything
    else makes [process_workflow_file] return [None]) is left out of
    [workflows]; the files before and after it are processed as if it were
    not there, and the output document is still produced: it is the one
    the other files alone give. *)
Theorem main_skips_failed_file :
  forall (py_str : json -> string) (before after : list file) (f : file) (now : string),
    (file_data f = None
     \/ (exists v, file_data f = Some v /\ as_dict v = None)
     \/ (exists d, file_data f = Some (JObj d)
                   /\ truthy (default JNull (dict_get "updatedAt" d)) = false
                   /\ file_mtime f = None)
     \/ process_workflow_file py_str f = None) ->
    process_workflow_file py_str f = None
    /\ out_workflows (main py_str (before ++ f :: after) now)
       = omap (process_workflow_file py_str) before
         ++ omap (process_workflow_file py_str) after
    /\ main py_str (before ++ f :: after) now = main py_str (before ++ after) now
    /\ out_total_count (main py_str (before ++ f :: after) now)
       = length (omap (process_workflow_file py_str) (before ++ after)).
Proof.
  intros py_str before after f now Hraise.
  assert (process_workflow_file py_str f = None) as Hfail.
  { destruct Hraise as [H|[H|[H|H]]]; [| | |exact H];
      apply process_workflow_file_raises; auto. }
  assert (process_all py_str (before ++ f :: after) []
          = process_all py_str (before ++ after) []) as E.
  { rewrite !process_all_omap, !omap_app. simpl. rewrite Hfail. reflexivity. }
  split; [exact Hfail|]. split; [|split].
  - rewrite main_workflows, omap_app. simpl. rewrite Hfail. reflexivity.
  - unfold main. rewrite E. reflexivity.
  - unfold main. simpl. rewrite E, process_all_omap. reflexivity.
Qed.

Lemma main_skips_failed_file_witness :
  process_workflow_file no_str broken_file = None
  /\ out_workflows (main no_str [lead_file; broken_file; dated_file] "2024-06-01T12:00:00")
  = omap (process_workflow_file no_str) [lead_file]
    ++ omap (process_workflow_file no_str) [dated_file]
  /\ main no_str [lead_file; broken_file; dated_file] "2024-06-01T12:00:00"
     = main no_str [lead_file; dated_file] "2024-06-01T12:00:00"
  /\ out_total_count (main no_str [lead_file; broken_file; dated_file] "2024-06-01T12:00:00")
     = length (omap (process_workflow_file no_str) [lead_file; dated_file]).
Proof.
  apply (main_skips_failed_file no_str [lead_file] [dated_file] broken_file).
  left. reflexivity.
Defined.

(** ** Fields of the wrong type *)

Section WrongTypes.

Variable py_str : json -> string.

Lemma contains_type_char c : Text.contains "type" (String c EmptyString) = false.
Proof.
  unfold Text.contains, Text.startswith.
  destruct (Ascii.eqb "t" c); reflexivity.
Qed.

(** Iterating over a text gives its characters, none of which contains
    "type": the loop adds nothing and does not raise. *)
Lemma node_names_chars (chars : list ascii) :
  node_names (map (fun c => JStr (String c EmptyString)) chars) = Some [].
Proof.
  induction chars as [|c rest IH]; [reflexivity|].
  change (node_names (JStr (String c EmptyString)
                      :: map (fun c => JStr (String c EmptyString)) rest) = Some []).
  unfold node_names; fold node_names.
  unfold py_in. rewrite contains_type_char. simpl. exact IH.
Qed.

(** One node whose type is not text makes the whole loop raise. *)
Lemma node_names_bad_type nodes fields t :
  JObj fields ∈ nodes -> dict_get "type" fields = Some t -> as_str t = None ->
  node_names nodes = None.
Proof.
  intros Hin Ht Hs. induction nodes as [|node rest IH]; [inversion Hin|].
  apply elem_of_cons in Hin as [<-|Hin].
  - simpl. rewrite Ht. simpl. rewrite Hs. reflexivity.
  - specialize (IH Hin). simpl. rewrite IH.
    destruct (py_in "type" node) as [[|]|]; simpl; try reflexivity.
    destruct (py_subscript node "type") as [v|]; simpl; [|reflexivity].
    destruct (as_str v); reflexivity.
Qed.

Lemma process_fails_without_integrations f d :
  file_data f = Some (JObj d) -> extract_integrations d = None ->
  process_workflow_file py_str f = None.
Proof.
  intros Hd He. unfold process_workflow_file. rewrite Hd. simpl. rewrite He.
  destruct (truthy (default (JStr "") (dict_get "description" d)));
    destruct (default (JStr (file_stem f)) (dict_get "name" d)); reflexivity.
Qed.

Lemma process_fails_without_text_name f d v :
  file_data f = Some (JObj d) -> dict_get "name" d = Some v -> as_str v = None ->
  process_workflow_file py_str f = None.
Proof.
  intros Hd Hn Hs. unfold process_workflow_file. rewrite Hd. simpl. rewrite Hn. simpl.
  rewrite Hs. simpl.
  destruct (truthy (default (JStr "") (dict_get "description" d))); simpl;
    [|reflexivity].
  destruct (extract_integrations d); reflexivity.
Qed.

End WrongTypes.

(** C10, as stated, fails: in [{"name": "Sync", "nodes": "abc"}] the
    nodes are a text where a list is expected, yet the record is built,
    with no integrations. *)
Lemma text_nodes_record_is_built :
  process_workflow_file no_str text_nodes_file
  = Some {| wf_slug := "sync";
            wf_name := "Sync";
            wf_description := JStr "Automated workflow for sync";
            wf_integrations := [];
            wf_category := "automation";
            wf_gh_path := "workflows/sync.json";
            wf_updated_at := JStr "2024-01-01T00:00:00" |}.
Proof. reflexivity. Qed.

(** C10, amended.  For a document that is a dict: a name that is present
    but not text, a nodes value that cannot be iterated (null, a boolean,
    a number), or a node whose type is present but not text makes record
    building raise, and the file is skipped.  A nodes value that is a text
    gives no integrations and does not raise, and neither does a
    description or an [updatedAt] of any type: when the name is text, the
    nodes yield names and a time stamp is to be had, the record is built;
    a falsy description is replaced as an absent one is, a truthy one is
    kept as it is. *)
Theorem wrongly_typed_fields :
  forall (py_str : json -> string) (f : file) (d : dict),
    file_data f = Some (JObj d) ->
    (forall v, dict_get "name" d = Some v -> as_str v = None ->
               process_workflow_file py_str f = None)
    /\ (forall v, dict_get "nodes" d = Some v -> py_iter v = None ->
                  process_workflow_file py_str f = None)
    /\ (forall nodes fields t,
          dict_get "nodes" d = Some (JArr nodes) -> JObj fields ∈ nodes ->
          dict_get "type" fields = Some t -> as_str t = None ->
          process_workflow_file py_str f = None)
    /\ (forall s, dict_get "nodes" d = Some (JStr s) -> extract_integrations d = Some [])
    /\ (forall name names,
          default (JStr (file_stem f)) (dict_get "name" d) = JStr name ->
          document_names d = Some names ->
          is_Some (file_mtime f) ->
          exists w,
            process_workflow_file py_str f = Some w
            /\ wf_description w
               = (if truthy (default (JStr "") (dict_get "description" d))
                  then default (JStr "") (dict_get "description" d)
                  else JStr ("Automated workflow for " ++ Text.lower name)%string)).
Proof.
  intros py_str f d Hd. split; [|split; [|split; [|split]]].
  - intros v Hn Hs. exact (process_fails_without_text_name py_str f d v Hd Hn Hs).
  - intros v Hn Hi. apply (process_fails_without_integrations py_str f d Hd).
    unfold extract_integrations. rewrite Hn. simpl. rewrite Hi. reflexivity.
  - intros nodes fields t Hn Hin Ht Hs.
    apply (process_fails_without_integrations py_str f d Hd).
    rewrite extract_integrations_names. unfold document_names. rewrite Hn. simpl.
    rewrite (node_names_bad_type nodes fields t Hin Ht Hs). reflexivity.
  - intros s Hn. rewrite extract_integrations_names. unfold document_names.
    rewrite Hn. simpl. rewrite node_names_chars. simpl.
    unfold distinct_names. rewrite list_to_set_nil, elements_empty. reflexivity.
  - intros name names Hname Hnames Hm.
    destruct (process_workflow_file_builds py_str f d name names Hd Hname Hnames)
      as [w Hw]; [right; exact Hm|].
    exists w. split; [exact Hw|].
    destruct (process_workflow_file_inv py_str f w Hw)
      as (d' & Hd' & Hn' & _ & _ & Hdesc & _).
    rewrite Hd in Hd'. injection Hd' as <-.
    rewrite Hname in Hn'. injection Hn' as Hn'. rewrite <- Hn' in Hdesc. exact Hdesc.
Qed.

Lemma wrongly_typed_fields_witness :
  process_workflow_file no_str numeric_name_file = None
  /\ extract_integrations [("name", JStr "Sync"); ("nodes", JStr "abc")] = Some [].
Proof.
  split.
  - apply (proj1 (wrongly_typed_fields no_str numeric_name_file [("name", JNum 7)] eq_refl)
             (JNum 7)); reflexivity.
  - apply (proj1 (proj2 (proj2 (proj2
             (wrongly_typed_fields no_str text_nodes_file
                [("name", JStr "Sync"); ("nodes", JStr "abc")] eq_refl))))
             "abc").
    reflexivity.
Defined.

(** * Further properties of the code *)

(** ** Case mapping and title case *)

Section CaseFacts.

Import Text.

Local Ltac by_char c := destruct c as [[] [] [] [] [] [] [] []]; reflexivity.

Lemma lower_char_idem c : lower_char (lower_char c) = lower_char c.
Proof. by_char c. Qed.

Lemma upper_char_idem c : upper_char (upper_char c) = upper_char c.
Proof. by_char c. Qed.

Lemma lower_upper_char c : lower_char (upper_char c) = lower_char c.
Proof. by_char c. Qed.

Lemma is_cased_lower_char c : is_cased (lower_char c) = is_cased c.
Proof. by_char c. Qed.

Lemma is_cased_upper_char c : is_cased (upper_char c) = is_cased c.
Proof. by_char c. Qed.

Lemma not_hyphen_lower_char c : not_hyphen (lower_char c) = not_hyphen c.
Proof. by_char c. Qed.

Lemma not_hyphen_upper_char c : not_hyphen (upper_char c) = not_hyphen c.
Proof. by_char c. Qed.

Lemma lower_idem s : lower (lower s) = lower s.
Proof.
  induction s as [|c r IH]; simpl; [reflexivity|].
  rewrite lower_char_idem, IH. reflexivity.
Qed.

Lemma lower_app a b : lower (a ++ b)%string = (lower a ++ lower b)%string.
Proof. induction a as [|c r IH]; simpl; [reflexivity|]. rewrite IH. reflexivity. Qed.

Lemma lower_join_space l : lower (join " " l) = join " " (map lower l).
Proof.
  induction l as [|x [|y r] IH]; [reflexivity|reflexivity|].
  change (lower (x ++ " " ++ join " " (y :: r))%string
          = (lower x ++ " " ++ join " " (map lower (y :: r)))%string).
  rewrite !lower_app, IH. reflexivity.
Qed.

Lemma lower_title_from b s : lower (title_from b s) = lower s.
Proof.
  revert b. induction s as [|c r IH]; intros b; simpl; [reflexivity|].
  rewrite IH. destruct b; [rewrite lower_char_idem|rewrite lower_upper_char];
    reflexivity.
Qed.

Lemma title_from_idem b s : title_from b (title_from b s) = title_from b s.
Proof.
  revert b. induction s as [|c r IH]; intros b; simpl; [reflexivity|].
  destruct b.
  - rewrite lower_char_idem, is_cased_lower_char, IH. reflexivity.
  - rewrite upper_char_idem, is_cased_upper_char, IH. reflexivity.
Qed.

Lemma title_from_not_hyphen b s :
  all_chars not_hyphen (title_from b s) = all_chars not_hyphen s.
Proof.
  revert b. induction s as [|c r IH]; intros b; simpl; [reflexivity|].
  rewrite IH. destruct b;
    [rewrite not_hyphen_lower_char|rewrite not_hyphen_upper_char]; reflexivity.
Qed.

Lemma title_from_length b s : String.length (title_from b s) = String.length s.
Proof.
  revert b. induction s as [|c r IH]; intros b; simpl; [reflexivity|].
  rewrite IH. reflexivity.
Qed.

Lemma replace_hyphen_not_hyphen s : all_chars not_hyphen (replace "-" " " s) = true.
Proof.
  unfold replace. induction s as [|c r IH]; [reflexivity|].
  unfold replace_from; fold replace_from. unfold startswith.
  destruct (Ascii.eqb_spec "-" c) as [<-|Hne]; simpl.
  - exact IH.
  - rewrite IH, andb_true_r. unfold not_hyphen.
    destruct (Ascii.eqb_spec c hyphen) as [->|]; [|reflexivity].
    exfalso. apply Hne. reflexivity.
Qed.

End CaseFacts.

(** X1.  Every name the clean-up of a node type produces is free of
    hyphens; and for a node type of ASCII characters the name is in title
    case already: title-casing it again changes nothing. *)
Theorem clean_node_type_title_cased :
  forall node_type : string,
    all_chars not_hyphen (clean_node_type node_type) = true
    /\ (all_chars is_ascii node_type = true ->
        Text.title (clean_node_type node_type) = clean_node_type node_type).
Proof.
  intros node_type. unfold clean_node_type, Text.title. split.
  - rewrite title_from_not_hyphen. apply replace_hyphen_not_hyphen.
  - intros _. apply title_from_idem.
Qed.

Lemma clean_node_type_title_cased_witness :
  all_chars not_hyphen (clean_node_type "n8n-nodes-base.google-sheets") = true
  /\ Text.title (clean_node_type "n8n-nodes-base.google-sheets")
     = clean_node_type "n8n-nodes-base.google-sheets".
Proof.
  split.
  - apply (clean_node_type_title_cased "n8n-nodes-base.google-sheets").
  - apply (clean_node_type_title_cased "n8n-nodes-base.google-sheets"). reflexivity.
Defined.

(** ** What [slugify] keeps of a text *)

Section SlugContent.

Import Text.

Lemma keep_alnum_lower s :
  keep_chars is_slug_alnum (lower s) = lower (keep_chars is_alnum s).
Proof.
  induction s as [|c r IH]; simpl; [reflexivity|].
  rewrite lower_char_alnum. destruct (is_alnum c); simpl; rewrite IH; reflexivity.
Qed.

Lemma keep_alnum_sub_runs b s :
  keep_chars is_slug_alnum (sub_runs b s) = keep_chars is_slug_alnum s.
Proof.
  revert b. induction s as [|c r IH]; intros b; simpl; [reflexivity|].
  destruct (is_slug_alnum c) eqn:Hc.
  - simpl. rewrite Hc, IH. reflexivity.
  - destruct b; [apply IH|].
    change (keep_chars is_slug_alnum (String hyphen (sub_runs true r))
            = keep_chars is_slug_alnum r).
    unfold keep_chars; fold keep_chars. rewrite hyphen_not_alnum. apply IH.
Qed.

Lemma keep_alnum_lstrip s :
  keep_chars is_slug_alnum (lstrip_hyphen s) = keep_chars is_slug_alnum s.
Proof.
  induction s as [|c r IH]; simpl; [reflexivity|].
  destruct (Ascii.eqb_spec c hyphen) as [->|]; [|reflexivity].
  rewrite hyphen_not_alnum. exact IH.
Qed.

Lemma keep_alnum_rstrip s :
  keep_chars is_slug_alnum (rstrip_hyphen s) = keep_chars is_slug_alnum s.
Proof.
  induction s as [|c r IH]; simpl; [reflexivity|].
  destruct (rstrip_hyphen r) as [|d r'].
  - simpl in IH. rewrite <- IH.
    destruct (Ascii.eqb_spec c hyphen) as [->|]; [reflexivity|].
    simpl. destruct (is_slug_alnum c); reflexivity.
  - change ((if is_slug_alnum c then String c (keep_chars is_slug_alnum (String d r'))
             else keep_chars is_slug_alnum (String d r'))
            = (if is_slug_alnum c then String c (keep_chars is_slug_alnum r)
               else keep_chars is_slug_alnum r)).
    rewrite IH. reflexivity.
Qed.

Lemma sub_runs_length b s : String.length (sub_runs b s) <= String.length s.
Proof.
  revert b. induction s as [|c r IH]; intros b; simpl; [lia|].
  destruct (is_slug_alnum c); [simpl; specialize (IH false); lia|].
  destruct b; simpl; specialize (IH true); lia.
Qed.

Lemma lstrip_length s : String.length (lstrip_hyphen s) <= String.length s.
Proof.
  induction s as [|c r IH]; simpl; [lia|].
  destruct (Ascii.eqb c hyphen); simpl; lia.
Qed.

Lemma rstrip_length s : String.length (rstrip_hyphen s) <= String.length s.
Proof.
  induction s as [|c r IH]; simpl; [lia|].
  destruct (rstrip_hyphen r) as [|d r']; simpl in *; [|lia].
  destruct (Ascii.eqb c hyphen); simpl; lia.
Qed.

Lemma lower_length s : String.length (lower s) = String.length s.
Proof. induction s as [|c r IH]; simpl; [reflexivity|]. rewrite IH. reflexivity. Qed.

End SlugContent.

(** X2.  [slugify] only touches separators: the characters of
    [[a-z0-9]] in the slug are those of the lower-cased text, in the same
    order; the slug is never longer than the lower-cased text; and a text
    and its lower-casing have the same slug.  For a text of ASCII
    characters, moreover, the letters and digits of the slug are those of
    the text itself, lower-cased; the slug is never longer than the text;
    and the title-cased text has the same slug. *)
Theorem slugify_keeps_letters_and_digits :
  forall t : string,
    keep_chars Text.is_slug_alnum (slugify t)
    = keep_chars Text.is_slug_alnum (Text.lower t)
    /\ String.length (slugify t) <= String.length (Text.lower t)
    /\ slugify (Text.lower t) = slugify t
    /\ (all_chars is_ascii t = true ->
        keep_chars Text.is_slug_alnum (slugify t) = Text.lower (keep_chars is_alnum t)
        /\ String.length (slugify t) <= String.length t
        /\ slugify (Text.title t) = slugify t).
Proof.
  intros t.
  assert (keep_chars Text.is_slug_alnum (slugify t)
          = keep_chars Text.is_slug_alnum (Text.lower t)) as Hkeep.
  { unfold slugify, Text.strip_hyphen, Text.re_sub_non_alnum.
    rewrite keep_alnum_rstrip, keep_alnum_lstrip, keep_alnum_sub_runs. reflexivity. }
  assert (String.length (slugify t) <= String.length (Text.lower t)) as Hlen.
  { unfold slugify, Text.strip_hyphen, Text.re_sub_non_alnum.
    pose proof (rstrip_length (Text.lstrip_hyphen (Text.sub_runs false (Text.lower t)))).
    pose proof (lstrip_length (Text.sub_runs false (Text.lower t))).
    pose proof (sub_runs_length false (Text.lower t)). lia. }
  split; [exact Hkeep|]. split; [exact Hlen|]. split.
  - unfold slugify. rewrite lower_idem. reflexivity.
  - intros _. split; [|split].
    + rewrite Hkeep. apply keep_alnum_lower.
    + rewrite lower_length in Hlen. exact Hlen.
    + unfold slugify, Text.title. rewrite lower_title_from. reflexivity.
Qed.

Lemma slugify_keeps_letters_and_digits_witness :
  keep_chars Text.is_slug_alnum (slugify "Lead Email Campaign")
  = Text.lower (keep_chars is_alnum "Lead Email Campaign")
  /\ String.length (slugify "Lead Email Campaign") <= String.length "Lead Email Campaign"
  /\ slugify (Text.title "Lead Email Campaign") = slugify "Lead Email Campaign".
Proof.
  apply (slugify_keeps_letters_and_digits "Lead Email Campaign"). reflexivity.
Defined.

(** ** Nodes of the expected type *)

Section TypedNodes.

Lemma node_names_well_typed nodes :
  Forall (fun node => well_typed_node node = true) nodes ->
  node_names nodes = Some (map clean_node_type (omap node_type_of nodes)).
Proof.
  induction 1 as [|node rest Hnode _ IH]; [reflexivity|].
  destruct node as [| | | | |fields]; try discriminate Hnode.
  simpl in Hnode. simpl.
  destruct (dict_get "type" fields) as [[| | |node_type| |]|] eqn:Et;
    try discriminate Hnode; simpl.
  - rewrite IH. reflexivity.
  - exact IH.
Qed.

Lemma NoDup_take_elements (X : gset string) n : NoDup (take n (elements X)).
Proof. exact (sublist_NoDup _ _ (NoDup_elements X) (sublist_take _ n)). Qed.

Lemma elem_of_take_elements (X : gset string) n x : x ∈ take n (elements X) -> x ∈ X.
Proof.
  intros H. apply elem_of_take in H as (i & Hi & _).
  apply elem_of_elements. eapply list_elem_of_lookup_2. exact Hi.
Qed.

End TypedNodes.

(** X3.  On a document whose nodes are a list of dicts, each with a text
    type or none, [extract_integrations] does not raise; what it returns
    has no repeated entry, and every entry is the cleaned-up type of one
    of the nodes (nodes without a type contribute nothing). *)
Theorem extract_integrations_well_typed :
  forall (workflow_data : dict) (nodes : list json),
    dict_get "nodes" workflow_data = Some (JArr nodes) ->
    Forall (fun node => well_typed_node node = true) nodes ->
    exists result,
      extract_integrations workflow_data = Some result
      /\ NoDup result
      /\ (forall x, x ∈ result ->
            exists node node_type,
              node ∈ nodes /\ node_type_of node = Some node_type
              /\ x = clean_node_type node_type).
Proof.
  intros workflow_data nodes Hn Hall.
  rewrite extract_integrations_names. unfold document_names. rewrite Hn. simpl.
  rewrite (node_names_well_typed nodes Hall). simpl.
  eexists. split; [reflexivity|]. split; [apply NoDup_take_elements|].
  intros x Hx. apply elem_of_take_elements in Hx.
  apply elem_of_list_to_set in Hx. apply list_elem_of_fmap in Hx as (t & -> & Ht).
  apply list_elem_of_omap in Ht as (node & Hin & Ht). eauto.
Qed.

Lemma extract_integrations_well_typed_witness :
  exists result,
    extract_integrations three_nodes = Some result
    /\ NoDup result
    /\ (forall x, x ∈ result ->
          exists node node_type,
            node ∈ [typed_node "n8n-nodes-base.gmail"; typed_node "n8n-nodes-base.slack";
                    typed_node "n8n-nodes-base.gmail"]
            /\ node_type_of node = Some node_type
            /\ x = clean_node_type node_type).
Proof.
  apply (extract_integrations_well_typed three_nodes); [reflexivity|].
  repeat constructor.
Defined.

(** ** Keywords and the fields of the blob *)

Section BlobFields.

Import Text.

Lemma startswith_before_space k a b :
  all_chars not_space k = true ->
  startswith k (a ++ String " " b)%string = startswith k a.
Proof.
  revert k. induction a as [|x a IH]; intros [|c k] Hk; try reflexivity.
  - simpl in Hk. apply andb_prop in Hk as [Hc _]. unfold not_space in Hc.
    simpl. destruct (Ascii.eqb c " "); [discriminate|reflexivity].
  - simpl in Hk. apply andb_prop in Hk as [_ Hk]. simpl.
    destruct (Ascii.eqb c x); [apply IH, Hk|reflexivity].
Qed.

Lemma contains_empty k : k <> "" -> contains k "" = false.
Proof. destruct k; [contradiction|reflexivity]. Qed.

(** A keyword without a space cannot straddle the space between two
    fields. *)
Lemma contains_across_space k a b :
  all_chars not_space k = true -> k <> "" ->
  contains k (a ++ String " " b)%string = contains k a || contains k b.
Proof.
  intros Hk Hne. induction a as [|x a IH].
  - rewrite (contains_empty k Hne). simpl.
    change (startswith k ("" ++ String " " b)%string || contains k b = contains k b).
    rewrite (startswith_before_space k "" b Hk).
    destruct k; [contradiction|reflexivity].
  - change (startswith k (String x a ++ String " " b)%string
            || contains k (a ++ String " " b)%string
            = (startswith k (String x a) || contains k a) || contains k b).
    rewrite (startswith_before_space k (String x a) b Hk), IH, orb_assoc. reflexivity.
Qed.

Lemma contains_join_space k l :
  all_chars not_space k = true -> k <> "" ->
  contains k (join " " l) = existsb (contains k) l.
Proof.
  intros Hk Hne. induction l as [|x [|y r] IH].
  - apply contains_empty, Hne.
  - simpl. rewrite orb_false_r. reflexivity.
  - change (contains k (x ++ String " " (join " " (y :: r)))%string
            = contains k x || existsb (contains k) (y :: r)).
    rewrite (contains_across_space k x _ Hk Hne), IH. reflexivity.
Qed.

Lemma blob_fields name description integrations :
  blob name description integrations
  = (lower name ++ String " " (lower description
       ++ String " " (join " " (map lower integrations))))%string.
Proof.
  unfold blob.
  change (lower (name ++ String " " (description ++ String " " (join " " integrations)))%string
          = (lower name ++ String " " (lower description
               ++ String " " (join " " (map lower integrations))))%string).
  rewrite lower_app. simpl. rewrite lower_app. simpl. rewrite lower_join_space.
  reflexivity.
Qed.

Lemma taxonomy_keywords_plain :
  Forall (fun entry =>
            Forall (fun k => all_chars not_space k = true /\ k <> "") (snd entry))
         load_search_categories.
Proof. repeat constructor; discriminate. Qed.

Lemma contains_blob k name description integrations :
  all_chars not_space k = true -> k <> "" ->
  contains k (blob name description integrations)
  = contains k (lower name) || contains k (lower description)
    || existsb (fun x => contains k (lower x)) integrations.
Proof.
  intros Hk Hne. rewrite blob_fields.
  rewrite !(contains_across_space k _ _ Hk Hne), (contains_join_space k _ Hk Hne).
  rewrite orb_assoc. f_equal.
  induction integrations as [|x r IH]; simpl; [reflexivity|]. rewrite IH. reflexivity.
Qed.

Lemma startswith_app k a b : startswith k a = true -> startswith k (a ++ b)%string = true.
Proof.
  revert a. induction k as [|c k IH]; intros [|x a]; simpl; try reflexivity;
    [discriminate|].
  destruct (Ascii.eqb c x); [apply IH|discriminate].
Qed.

Lemma contains_app_l k a b : contains k a = true -> contains k (a ++ b)%string = true.
Proof.
  induction a as [|x a IH].
  - destruct k as [|c k]; [|discriminate]. intros _. destruct b; reflexivity.
  - intros H.
    change (startswith k (String x a) || contains k a = true) in H.
    change (startswith k (String x a ++ b)%string || contains k (a ++ b)%string = true).
    apply orb_prop in H as [H|H].
    + rewrite (startswith_app _ _ b H). reflexivity.
    + rewrite (IH H). apply orb_true_r.
Qed.

End BlobFields.

(** X4.  Matching is local to a field: a taxonomy keyword occurs in the
    blob exactly when it occurs in the lower-cased name, in the
    lower-cased description or in one of the lower-cased integration
    names; the spaces that join the fields never complete a keyword. *)
Theorem keyword_in_blob_is_in_a_field :
  forall (name description : string) (integrations : list string)
         (category : string) (keywords : list string) (keyword : string),
    (category, keywords) ∈ load_search_categories ->
    keyword ∈ keywords ->
    Text.contains keyword (blob name description integrations)
    = Text.contains keyword (Text.lower name)
      || Text.contains keyword (Text.lower description)
      || existsb (fun x => Text.contains keyword (Text.lower x)) integrations.
Proof.
  intros name description integrations category keywords keyword Hc Hk.
  pose proof (proj1 (Forall_forall _ _) taxonomy_keywords_plain _ Hc) as Hall.
  destruct (proj1 (Forall_forall _ _) Hall _ Hk) as [Hsp Hne].
  exact (contains_blob keyword name description integrations Hsp Hne).
Qed.

Lemma keyword_in_blob_is_in_a_field_witness :
  Text.contains "slack" (blob "Daily digest" "" ["Slack"; "Gmail"])
  = Text.contains "slack" (Text.lower "Daily digest")
    || Text.contains "slack" (Text.lower "")
    || existsb (fun x => Text.contains "slack" (Text.lower x)) ["Slack"; "Gmail"].
Proof.
  apply (keyword_in_blob_is_in_a_field "Daily digest" "" ["Slack"; "Gmail"]
           "communication" ["slack"; "email"; "chat"; "notification"; "message"]).
  - do 4 right. left.
  - left.
Defined.

(** X5.  The classifier does not look at case: names, descriptions and
    integration lists that agree once lower-cased get the same category. *)
Theorem categorize_workflow_ignores_case :
  forall (name name' description description' : string)
         (integrations integrations' : list string),
    Text.lower name = Text.lower name' ->
    Text.lower description = Text.lower description' ->
    map Text.lower integrations = map Text.lower integrations' ->
    categorize_workflow name description integrations
    = categorize_workflow name' description' integrations'.
Proof.
  intros name name' description description' integrations integrations' Hn Hd Hi.
  unfold categorize_workflow. rewrite !blob_fields, Hn, Hd, Hi. reflexivity.
Qed.

Lemma categorize_workflow_ignores_case_witness :
  categorize_workflow "Stripe Invoice" "PAYMENT sync" ["Slack"]
  = categorize_workflow "STRIPE invoice" "payment SYNC" ["SLACK"].
Proof.
  apply (categorize_workflow_ignores_case "Stripe Invoice" "STRIPE invoice"
           "PAYMENT sync" "payment SYNC" ["Slack"] ["SLACK"]); reflexivity.
Defined.

(** X6.  The sentence generated for a document without a (truthy)
    description contains the keyword "workflow": such a record never gets
    its category from the default branch.  A taxonomy keyword occurs in
    its blob, the category 'automation' scores at least 1, and the
    category of the record is the first category of greatest score. *)
Theorem generated_description_is_scored :
  forall (py_str : json -> string) (f : file) (d : dict) (w : workflow),
    process_workflow_file py_str f = Some w ->
    file_data f = Some (JObj d) ->
    truthy (default (JStr "") (dict_get "description" d)) = false ->
    wf_description w = JStr ("Automated workflow for " ++ Text.lower (wf_name w))%string
    /\ 0 < score (blob (wf_name w)
                       ("Automated workflow for " ++ Text.lower (wf_name w))%string
                       (wf_integrations w))
                 ["workflow"; "process"; "trigger"; "schedule"; "notification"]
    /\ first_best (blob (wf_name w)
                        ("Automated workflow for " ++ Text.lower (wf_name w))%string
                        (wf_integrations w))
                  (wf_category w).
Proof.
  intros py_str f d w H Hd Hfalsy.
  destruct (process_workflow_file_inv py_str f w H)
    as (d' & Hd' & _ & _ & _ & Hdesc & Hcat & _).
  rewrite Hd in Hd'. injection Hd' as <-. rewrite Hfalsy in Hdesc.
  rewrite Hdesc in Hcat. simpl in Hcat.
  set (text := blob (wf_name w)
                 ("Automated workflow for " ++ Text.lower (wf_name w))%string
                 (wf_integrations w)) in *.
  assert (Text.contains "workflow" text = true) as Hw.
  { unfold text. rewrite contains_blob by (reflexivity || discriminate).
    apply orb_true_iff. left. apply orb_true_iff. right.
    rewrite lower_app. apply contains_app_l. reflexivity. }
  assert (0 < score text ["workflow"; "process"; "trigger"; "schedule"; "notification"])
    as Hpos.
  { apply score_positive. exists "workflow". split; [left|exact Hw]. }
  split; [exact Hdesc|]. split; [exact Hpos|].
  rewrite Hcat. unfold categorize_workflow. fold text.
  destruct (categorize_text_spec text) as [[Hno _]|Hbest]; [|exact Hbest].
  exfalso. apply Hno.
  exists "automation", ["workflow"; "process"; "trigger"; "schedule"; "notification"],
         "workflow".
  split; [do 3 right; left|]. split; [left|exact Hw].
Qed.

Lemma generated_description_is_scored_witness :
  exists w,
    process_workflow_file no_str misc_task_file = Some w
    /\ wf_description w = JStr ("Automated workflow for " ++ Text.lower (wf_name w))%string
    /\ 0 < score (blob (wf_name w)
                       ("Automated workflow for " ++ Text.lower (wf_name w))%string
                       (wf_integrations w))
                 ["workflow"; "process"; "trigger"; "schedule"; "notification"]
    /\ first_best (blob (wf_name w)
                        ("Automated workflow for " ++ Text.lower (wf_name w))%string
                        (wf_integrations w))
                  (wf_category w).
Proof.
  eexists. split; [reflexivity|].
  apply (generated_description_is_scored no_str misc_task_file []); reflexivity.
Defined.

(** X7.  In a built record the description is never empty (nor any other
    falsy value), the name is the document's own text name or, when the
    document has no name, the stem of the file path, from which the slug
    is then derived, and [gh_path] is the relative path of the file. *)
Theorem built_record_fields :
  forall (py_str : json -> string) (f : file) (d : dict) (w : workflow),
    process_workflow_file py_str f = Some w ->
    file_data f = Some (JObj d) ->
    truthy (wf_description w) = true
    /\ (dict_get "name" d = None ->
        wf_name w = file_stem f /\ wf_slug w = slugify (file_stem f))
    /\ (forall v, dict_get "name" d = Some v -> v = JStr (wf_name w))
    /\ wf_gh_path w = file_rel f.
Proof.
  intros py_str f d w H Hd.
  destruct (process_workflow_file_inv py_str f w H)
    as (d' & Hd' & Hname & _ & Hslug & Hdesc & _ & Hpath & _).
  rewrite Hd in Hd'. injection Hd' as <-.
  split; [|split; [|split]].
  - rewrite Hdesc.
    destruct (truthy (default (JStr "") (dict_get "description" d))) eqn:E;
      [exact E|reflexivity].
  - intros Hnone. rewrite Hnone in Hname. simpl in Hname. injection Hname as Hname.
    rewrite Hslug, <- Hname. split; reflexivity.
  - intros v Hv. rewrite Hv in Hname. exact Hname.
  - exact Hpath.
Qed.

Lemma built_record_fields_witness :
  exists w,
    process_workflow_file no_str misc_task_file = Some w
    /\ truthy (wf_description w) = true
    /\ (dict_get "name" [] = None ->
        wf_name w = file_stem misc_task_file /\ wf_slug w = slugify (file_stem misc_task_file))
    /\ (forall v, dict_get "name" [] = Some v -> v = JStr (wf_name w))
    /\ wf_gh_path w = file_rel misc_task_file.
Proof.
  eexists. split; [reflexivity|].
  apply (built_record_fields no_str misc_task_file []); reflexivity.
Defined.

(** ** The aggregated document *)

Section Aggregate.

Variable py_str : json -> string.

Lemma omap_length_le {A B} (g : A -> option B) (l : list A) :
  length (omap g l) <= length l.
Proof.
  induction l as [|x l IH]; [reflexivity|].
  change (length (match g x with Some y => y :: omap g l | None => omap g l end)
          <= S (length l)).
  destruct (g x); simpl; lia.
Qed.

Lemma elements_list_to_set_length (l : list string) :
  length (elements (list_to_set l : gset string)) <= length l.
Proof.
  apply submseteq_length, NoDup_submseteq; [apply NoDup_elements|].
  intros x Hx. apply elem_of_elements, elem_of_list_to_set in Hx. exact Hx.
Qed.

Lemma process_workflow_file_category f w :
  process_workflow_file py_str f = Some w -> wf_category w ∈ taxonomy_keys.
Proof.
  intros H. destruct (process_workflow_file_inv py_str f w H)
    as (d & _ & _ & _ & _ & _ & Hcat & _).
  rewrite Hcat. apply categorize_result_in_taxonomy.
Qed.

End Aggregate.

(** X8.  The document [main] writes is consistent: [total_count] is the
    number of records and at most the number of files; the records are
    those of the files that were built, in file order; [categories] has no
    repeated entry and holds exactly the categories of the records, so it
    has at most [total_count] and at most 10 entries, all of them taxonomy
    keys; the version is "1.0". *)
Theorem main_index_consistent :
  forall (py_str : json -> string) (workflow_files : list file) (now : string),
    out_workflows (main py_str workflow_files now)
    = omap (process_workflow_file py_str) workflow_files
    /\ out_total_count (main py_str workflow_files now)
       = length (out_workflows (main py_str workflow_files now))
    /\ out_total_count (main py_str workflow_files now) <= length workflow_files
    /\ NoDup (out_categories (main py_str workflow_files now))
    /\ (forall c, c ∈ out_categories (main py_str workflow_files now)
                  <-> exists w, w ∈ out_workflows (main py_str workflow_files now)
                                /\ wf_category w = c)
    /\ (forall c, c ∈ out_categories (main py_str workflow_files now) ->
                  c ∈ taxonomy_keys)
    /\ length (out_categories (main py_str workflow_files now))
       <= out_total_count (main py_str workflow_files now)
    /\ length (out_categories (main py_str workflow_files now)) <= 10
    /\ out_version (main py_str workflow_files now) = "1.0".
Proof.
  intros py_str files now.
  assert (forall c, c ∈ out_categories (main py_str files now)
                    <-> exists w, w ∈ out_workflows (main py_str files now)
                                  /\ wf_category w = c) as Hcats.
  { intros c. unfold main. simpl.
    rewrite elem_of_elements, elem_of_list_to_set, list_elem_of_fmap.
    split; intros (w & H1 & H2); exists w; auto. }
  assert (forall c, c ∈ out_categories (main py_str files now) -> c ∈ taxonomy_keys)
    as Htax.
  { intros c Hc. apply Hcats in Hc as (w & Hw & <-).
    rewrite main_workflows in Hw. apply list_elem_of_omap in Hw as (f & _ & Hf).
    exact (process_workflow_file_category py_str f w Hf). }
  assert (NoDup (out_categories (main py_str files now))) as Hnd
    by (unfold main; simpl; apply NoDup_elements).
  split; [apply main_workflows|]. split; [reflexivity|]. split.
  { unfold main. simpl. rewrite process_all_omap. simpl. apply omap_length_le. }
  split; [exact Hnd|]. split; [exact Hcats|]. split; [exact Htax|]. split.
  { unfold main. simpl.
    etransitivity; [apply elements_list_to_set_length|]. rewrite length_map. lia. }
  split; [|reflexivity].
  change 10 with (length taxonomy_keys).
  apply submseteq_length, NoDup_submseteq; assumption.
Qed.

(** X9.  The build of two file lists put end to end is the two builds put
    end to end: the records are concatenated, the counts add up, and a
    category is listed exactly when one of the two builds lists it. *)
Theorem main_of_concatenation :
  forall (py_str : json -> string) (files files' : list file) (now : string),
    out_workflows (main py_str (files ++ files') now)
    = out_workflows (main py_str files now) ++ out_workflows (main py_str files' now)
    /\ out_total_count (main py_str (files ++ files') now)
       = out_total_count (main py_str files now)
         + out_total_count (main py_str files' now)
    /\ (forall c, c ∈ out_categories (main py_str (files ++ files') now)
                  <-> c ∈ out_categories (main py_str files now)
                      \/ c ∈ out_categories (main py_str files' now)).
Proof.
  intros py_str files files' now.
  assert (process_all py_str (files ++ files') []
          = process_all py_str files [] ++ process_all py_str files' []) as E.
  { rewrite !process_all_omap. simpl. apply omap_app. }
  split; [exact E|]. split.
  - unfold main. simpl. rewrite E, length_app. reflexivity.
  - intros c. unfold main. simpl. rewrite E, map_app.
    rewrite !elem_of_elements, !elem_of_list_to_set, elem_of_app. reflexivity.
Qed.

(** X10.  When no file can be processed (and so on an empty tree) the
    document is still produced, with no records, a count of 0 and no
    categories. *)
Theorem main_of_failing_files :
  forall (py_str : json -> string) (workflow_files : list file) (now : string),
    Forall (fun f => process_workflow_file py_str f = None) workflow_files ->
    main py_str workflow_files now
    = {| out_workflows := []; out_total_count := 0; out_categories := [];
         out_generated_at := now; out_version := "1.0" |}.
Proof.
  intros py_str files now Hall.
  assert (process_all py_str files [] = []) as E.
  { rewrite process_all_omap. simpl.
    induction Hall as [|f rest Hf _ IH]; simpl; [reflexivity|]. rewrite Hf. exact IH. }
  unfold main. rewrite E. simpl. rewrite elements_empty. reflexivity.
Qed.

Lemma main_of_failing_files_witness :
  main no_str [broken_file; numeric_name_file] "2024-06-01T12:00:00"
  = {| out_workflows := []; out_total_count := 0; out_categories := [];
       out_generated_at := "2024-06-01T12:00:00"; out_version := "1.0" |}
  /\ main no_str [] "2024-06-01T12:00:00"
     = {| out_workflows := []; out_total_count := 0; out_categories := [];
          out_generated_at := "2024-06-01T12:00:00"; out_version := "1.0" |}.
Proof.
  split.
  - apply (main_of_failing_files no_str [broken_file; numeric_name_file]).
    repeat constructor.
  - apply (main_of_failing_files no_str []). constructor.
Defined.

(** ** File discovery *)

Section Discovery.

Variable glob : string -> list string.

Lemma elem_of_kept_paths (l : list string) f :
  f ∈ List.filter is_workflow_path l <-> f ∈ l /\ is_workflow_path f = true.
Proof. rewrite !list_elem_of_In. apply filter_In. Qed.

Lemma elem_of_collect_workflow_files patterns acc f :
  f ∈ collect_workflow_files glob patterns acc
  <-> f ∈ acc
      \/ (exists pattern, pattern ∈ patterns /\ f ∈ glob pattern)
         /\ is_workflow_path f = true.
Proof.
  revert acc. induction patterns as [|p rest IH]; intros acc; simpl.
  - split; [auto|]. intros [H|[(p & Hp & _) _]]; [exact H|inversion Hp].
  - rewrite IH, elem_of_app, elem_of_kept_paths.
    split.
    + intros [[H|[Hg Hk]]|[(q & Hq & Hg) Hk]]; [left; exact H| |].
      * right. split; [exists p; split; [left|exact Hg]|exact Hk].
      * right. split; [exists q; split; [right; exact Hq|exact Hg]|exact Hk].
    + intros [H|[(q & Hq & Hg) Hk]]; [left; left; exact H|].
      apply elem_of_cons in Hq as [->|Hq].
      * left. right. split; assumption.
      * right. split; [exists q; split; assumption|exact Hk].
Qed.

Lemma is_workflow_path_spec f :
  is_workflow_path f = true
  <-> forall exclude, exclude ∈ excluded_names -> Text.contains exclude f = false.
Proof.
  unfold is_workflow_path. rewrite negb_true_iff. split.
  - intros H exclude Hin.
    destruct (Text.contains exclude f) eqn:E; [|reflexivity].
    assert (existsb (fun exclude => Text.contains exclude f) excluded_names = true) as Ht.
    { apply existsb_exists. exists exclude. split; [apply list_elem_of_In, Hin|exact E]. }
    congruence.
  - intros H.
    destruct (existsb (fun exclude => Text.contains exclude f) excluded_names) eqn:E;
      [|reflexivity].
    apply existsb_exists in E as (exclude & Hin & Hc).
    rewrite (H exclude) in Hc; [discriminate|apply list_elem_of_In, Hin].
Qed.

End Discovery.

(** X11.  File discovery lists a path exactly when one of the three
    patterns matches it and it contains none of "package.json",
    "package-lock.json", "tsconfig.json" and "node_modules"; it lists no
    path twice, however many patterns match it. *)
Theorem discover_workflow_files_spec :
  forall (glob : string -> list string),
    NoDup (discover_workflow_files glob)
    /\ forall f,
         f ∈ discover_workflow_files glob
         <-> (exists pattern, pattern ∈ glob_patterns /\ f ∈ glob pattern)
             /\ forall exclude, exclude ∈ excluded_names ->
                                Text.contains exclude f = false.
Proof.
  intros glob. unfold discover_workflow_files. split; [apply NoDup_elements|].
  intros f.
  rewrite elem_of_elements, elem_of_list_to_set, elem_of_collect_workflow_files.
  rewrite is_workflow_path_spec. split.
  - intros [H|H]; [inversion H|exact H].
  - intros H. right. exact H.
Qed.

(** ** The slug as the words of the text *)

Section SlugWords.

Import Text.

Lemma alnum_words_head c r :
  is_slug_alnum c = true -> exists w ws, alnum_words (String c r) = String c w :: ws.
Proof.
  intros Hc. simpl. rewrite Hc.
  destruct (first_char r) as [d|]; [|eauto].
  destruct (alnum_words r) as [|w ws]; [eauto|].
  destruct (is_slug_alnum d); eauto.
Qed.

Lemma alnum_words_nonempty s : Forall (fun w => w <> "") (alnum_words s).
Proof.
  induction s as [|c r IH]; simpl; [constructor|].
  destruct (is_slug_alnum c); [|exact IH].
  destruct (first_char r) as [d|];
    [destruct (alnum_words r) as [|w ws]; [|destruct (is_slug_alnum d)]|].
  - repeat constructor. discriminate.
  - apply Forall_cons_1 in IH as [_ IH]. constructor; [discriminate|exact IH].
  - constructor; [discriminate|exact IH].
  - constructor; [discriminate|exact IH].
Qed.

Lemma join_cons_char c w ws :
  join "-" (String c w :: ws) = String c (join "-" (w :: ws)).
Proof. destruct ws; reflexivity. Qed.

Lemma join_words_empty s : join "-" (alnum_words s) = "" -> alnum_words s = [].
Proof.
  pose proof (alnum_words_nonempty s) as H.
  destruct (alnum_words s) as [|w ws]; [reflexivity|].
  apply Forall_cons_1 in H as [Hw _]. destruct w as [|c w]; [contradiction|].
  rewrite join_cons_char. discriminate.
Qed.

Lemma rstrip_cons_alnum c x :
  is_slug_alnum c = true ->
  rstrip_hyphen (String c x) = String c (rstrip_hyphen x).
Proof.
  intros Hc. simpl. destruct (rstrip_hyphen x); [|reflexivity].
  rewrite (alnum_not_hyphen c Hc). reflexivity.
Qed.

Lemma rstrip_cons_hyphen x :
  rstrip_hyphen (String hyphen x)
  = match rstrip_hyphen x with
    | EmptyString => EmptyString
    | y => String hyphen y
    end.
Proof. simpl. destruct (rstrip_hyphen x); reflexivity. Qed.

(** Inside a run, the replacement followed by the right strip gives the
    words joined by hyphens. *)
Lemma rstrip_sub_runs_words s :
  rstrip_hyphen (sub_runs true s) = join "-" (alnum_words s).
Proof.
  induction s as [|c r IH]; [reflexivity|].
  unfold sub_runs; fold sub_runs. unfold alnum_words; fold alnum_words.
  destruct (is_slug_alnum c) eqn:Hc; [|exact IH].
  rewrite (rstrip_cons_alnum c _ Hc).
  destruct r as [|d r']; [reflexivity|].
  change (first_char (String d r')) with (Some d).
  destruct (is_slug_alnum d) eqn:Hd.
  - assert (sub_runs false (String d r') = sub_runs true (String d r')) as ->
      by (simpl; rewrite Hd; reflexivity).
    rewrite IH.
    destruct (alnum_words_head d r' Hd) as (w & ws & ->).
    rewrite Hd, (join_cons_char c). reflexivity.
  - assert (sub_runs false (String d r') = String hyphen (sub_runs true (String d r')))
      as -> by (simpl; rewrite Hd; reflexivity).
    rewrite rstrip_cons_hyphen, IH.
    destruct (alnum_words (String d r')) as [|w ws] eqn:Ew; [reflexivity|].
    assert (join "-" (w :: ws) <> "") as Hne.
    { intros E. rewrite <- Ew in E. apply join_words_empty in E. congruence. }
    rewrite Hd.
    destruct (join "-" (w :: ws)) as [|x y] eqn:Ej; [contradiction|].
    change (String c (String hyphen (String x y))
            = join "-" (String c EmptyString :: w :: ws)).
    change (join "-" (String c EmptyString :: w :: ws))
      with (String c (String hyphen (join "-" (w :: ws)))).
    rewrite Ej. reflexivity.
Qed.

Lemma lstrip_sub_runs s : lstrip_hyphen (sub_runs false s) = sub_runs true s.
Proof.
  destruct s as [|c r]; [reflexivity|]. simpl.
  destruct (is_slug_alnum c) eqn:Hc.
  - simpl. rewrite (alnum_not_hyphen c Hc). reflexivity.
  - simpl. apply lstrip_no_leading, sub_runs_true_first.
Qed.

Lemma alnum_words_chars s : Forall (fun w => all_chars is_slug_alnum w = true) (alnum_words s).
Proof.
  induction s as [|c r IH]; simpl; [constructor|].
  destruct (is_slug_alnum c) eqn:Hc; [|exact IH].
  destruct (first_char r) as [d|];
    [destruct (alnum_words r) as [|w ws]; [|destruct (is_slug_alnum d)]|].
  - repeat constructor. simpl. rewrite Hc. reflexivity.
  - apply Forall_cons_1 in IH as [Hw IH]. constructor; [|exact IH].
    simpl. rewrite Hc, Hw. reflexivity.
  - constructor; [simpl; rewrite Hc; reflexivity|exact IH].
  - constructor; [simpl; rewrite Hc; reflexivity|exact IH].
Qed.

End SlugWords.

(** X12.  The slug of a text is its words joined by single hyphens, the
    words being the maximal runs of letters and digits of the lower-cased
    text: each word is non-empty and holds letters and digits only. *)
Theorem slugify_joins_words :
  forall t : string,
    slugify t = Text.join "-" (alnum_words (Text.lower t))
    /\ Forall (fun w => w <> "" /\ all_chars Text.is_slug_alnum w = true)
              (alnum_words (Text.lower t)).
Proof.
  intros t. split.
  - unfold slugify, Text.strip_hyphen, Text.re_sub_non_alnum.
    rewrite lstrip_sub_runs. apply rstrip_sub_runs_words.
  - apply Forall_forall. intros w Hw. split.
    + exact (proj1 (Forall_forall _ _) (alnum_words_nonempty _) w Hw).
    + exact (proj1 (Forall_forall _ _) (alnum_words_chars _) w Hw).
Qed.

Example alnum_words_ex1 :
  alnum_words "--hello,  world! 42" = ["hello"; "world"; "42"].
Proof. reflexivity. Qed.
